(** * snmalloc: the Windows platform abstraction layer ([src/pal/pal_windows.h])

    A shallow embedding of class [PALWindows].  The member functions are
    written in a small state-and-error monad over a [World] that holds the
    class's static data, the virtual memory of the process and the log of
    the calls that left the layer.  The operating system is a parameter: a
    record of functions that decide the result of each system call from
    the world in which it is made. *)

From Stdlib Require Import ZArith List String Bool Lia.
Import ListNotations.
Local Open Scope Z_scope.

(** ** Machine integers and the constants of [<windows.h>] *)

(** [size_t] on the 64-bit target: unsigned arithmetic wraps modulo 2^64. *)
Definition SIZE_T_MODULUS : Z := 2 ^ 64.
Definition size_t (x : Z) : Z := x mod SIZE_T_MODULUS.

Definition MEM_COMMIT : Z := 0x1000.
Definition MEM_RESERVE : Z := 0x2000.
Definition MEM_DECOMMIT : Z := 0x4000.
Definition PAGE_READWRITE : Z := 0x04.
Definition INFINITE : Z := 0xFFFFFFFF.
Definition WT_EXECUTEDEFAULT : Z := 0.
Definition LowMemoryResourceNotification : Z := 0.
Definition nullptr : Z := 0.

(** The third field is the only one [reserve] fills in. *)
Record MEM_ADDRESS_REQUIREMENTS := {
  LowestStartingAddress : Z;
  HighestEndingAddress : Z;
  Alignment : Z
}.

(** ** Build configuration

    The preprocessor symbols the header tests.  [NTDDI_WIN10_RS5] may be
    undefined (an SDK older than RS5), hence the option. *)
Record Build := {
  NTDDI_WIN10_RS5 : option Z;
  NTDDI_VERSION : Z;
  WINVER : Z;
  _WIN32_WINNT_WIN10 : Z;
  USE_SYSTEMATIC_TESTING : bool;
  NDEBUG : bool
}.

(** Lines 12-17: when the header defines [PLATFORM_HAS_VIRTUALALLOC2]. *)
Definition PLATFORM_HAS_VIRTUALALLOC2 (cfg : Build) : bool :=
  match NTDDI_WIN10_RS5 cfg with
  | Some rs5 =>
      (rs5 <=? NTDDI_VERSION cfg) && (_WIN32_WINNT_WIN10 cfg <=? WINVER cfg)
      && negb (USE_SYSTEMATIC_TESTING cfg)
  | None => false
  end.

(** The [#ifdef] / [#elif] / [#else] chain around the three [reserve]s. *)
Inductive ReservationStrategy := Simulated | ExtendedAligned | Plain.

Definition strategy (cfg : Build) : ReservationStrategy :=
  if USE_SYSTEMATIC_TESTING cfg then Simulated
  else if PLATFORM_HAS_VIRTUALALLOC2 cfg then ExtendedAligned
  else Plain.

Inductive ZeroMem := NoZero | YesZero.

Definition ZeroMem_eqb (a b : ZeroMem) : bool :=
  match a, b with
  | NoZero, NoZero | YesZero, YesZero => true
  | _, _ => false
  end.

(** ** The world *)

(** Calls that leave the layer, with the arguments the source passes;
    out-parameters, the callback pointer and its null context are left
    out. *)
Inductive Call :=
| CallCreateMemoryResourceNotification (NotificationType : Z)
| CallRegisterWaitForSingleObject (hObject : Z) (dwMilliseconds dwFlags : Z)
| CallQueryMemoryResourceNotification (ResourceNotificationHandle : Z)
| CallVirtualFree (lpAddress dwSize dwFreeType : Z)
| CallVirtualAlloc (lpAddress dwSize flAllocationType flProtect : Z)
| CallVirtualAlloc2FromApp (Process BaseAddress Size AllocationType PageProtection : Z)
    (AddressRequirements : MEM_ADDRESS_REQUIREMENTS) (ParameterCount : Z)
| CallMemset (dest ch count : Z).

(** Virtual memory: which pages are committed, and the byte at each
    address.  A byte on a page that is not committed cannot be read. *)
Record Memory := {
  committed : Z -> bool;
  bytes : Z -> Z
}.

Record World := {
  registered_for_notifications : bool;
  lowMemoryObject : Z;
  low_memory_callbacks : list Z;
  bump_ptr : Z;
  memory : Memory;
  calls : list Call;
  stdout : list string
}.

Definition with_registered (b : bool) (w : World) : World :=
  {| registered_for_notifications := b;
     lowMemoryObject := lowMemoryObject w;
     low_memory_callbacks := low_memory_callbacks w;
     bump_ptr := bump_ptr w; memory := memory w;
     calls := calls w; stdout := stdout w |}.

Definition with_lowMemoryObject (h : Z) (w : World) : World :=
  {| registered_for_notifications := registered_for_notifications w;
     lowMemoryObject := h;
     low_memory_callbacks := low_memory_callbacks w;
     bump_ptr := bump_ptr w; memory := memory w;
     calls := calls w; stdout := stdout w |}.

Definition with_callbacks (l : list Z) (w : World) : World :=
  {| registered_for_notifications := registered_for_notifications w;
     lowMemoryObject := lowMemoryObject w;
     low_memory_callbacks := l;
     bump_ptr := bump_ptr w; memory := memory w;
     calls := calls w; stdout := stdout w |}.

Definition with_bump_ptr (b : Z) (w : World) : World :=
  {| registered_for_notifications := registered_for_notifications w;
     lowMemoryObject := lowMemoryObject w;
     low_memory_callbacks := low_memory_callbacks w;
     bump_ptr := b; memory := memory w;
     calls := calls w; stdout := stdout w |}.

Definition with_memory (m : Memory) (w : World) : World :=
  {| registered_for_notifications := registered_for_notifications w;
     lowMemoryObject := lowMemoryObject w;
     low_memory_callbacks := low_memory_callbacks w;
     bump_ptr := bump_ptr w; memory := m;
     calls := calls w; stdout := stdout w |}.

Definition log_call (c : Call) (w : World) : World :=
  {| registered_for_notifications := registered_for_notifications w;
     lowMemoryObject := lowMemoryObject w;
     low_memory_callbacks := low_memory_callbacks w;
     bump_ptr := bump_ptr w; memory := memory w;
     calls := calls w ++ [c]; stdout := stdout w |}.

Definition print (s : string) (w : World) : World :=
  {| registered_for_notifications := registered_for_notifications w;
     lowMemoryObject := lowMemoryObject w;
     low_memory_callbacks := low_memory_callbacks w;
     bump_ptr := bump_ptr w; memory := memory w;
     calls := calls w; stdout := stdout w ++ [s] |}.

(** The operating system, as seen from this layer: what each call returns
    in a given world.  Whether a call succeeds is the system's decision
    alone (address space, commit charge, handle validity), so nothing is
    assumed about these functions.
    - a handle or pointer result of 0 is [NULL], the failure value;
    - [os_QueryMemoryResourceNotification] gives the [BOOL] result and the
      value stored through the out-parameter, if the system stores one;
    - [os_indeterminate] is what an uninitialised local reads as. *)
Record OS := {
  os_CreateMemoryResourceNotification : World -> Z -> Z;
  os_RegisterWaitForSingleObject : World -> Z -> Z -> Z -> bool;
  os_QueryMemoryResourceNotification : World -> Z -> bool * option Z;
  os_VirtualFree : World -> Z -> Z -> Z -> bool;
  os_VirtualAlloc : World -> Z -> Z -> Z -> Z -> Z;
  os_VirtualAlloc2FromApp :
    World -> Z -> Z -> Z -> MEM_ADDRESS_REQUIREMENTS -> Z;
  os_indeterminate : World -> Z
}.

(** ** The monad of member functions *)

Inductive Outcome (A : Type) :=
| Ret (a : A) (w : World)          (* normal return *)
| Abort (msg : string) (w : World) (* [error]: the process is gone *)
| AssertFail (w : World)           (* a failed [assert] *)
| Fault (w : World)                (* access to memory that is not committed *)
| OutOfFuel (w : World).           (* a loop of the model ran past its bound *)
Arguments Ret {A} a w.
Arguments Abort {A} msg w.
Arguments AssertFail {A} w.
Arguments Fault {A} w.
Arguments OutOfFuel {A} w.

Definition final {A} (o : Outcome A) : World :=
  match o with
  | Ret _ w | Abort _ w | AssertFail w | Fault w | OutOfFuel w => w
  end.

Definition PAL (A : Type) : Type := World -> Outcome A.

Definition ret {A} (a : A) : PAL A := fun w => Ret a w.

Definition bind {A B} (m : PAL A) (k : A -> PAL B) : PAL B :=
  fun w =>
    match m w with
    | Ret a w' => k a w'
    | Abort msg w' => Abort msg w'
    | AssertFail w' => AssertFail w'
    | Fault w' => Fault w'
    | OutOfFuel w' => OutOfFuel w'
    end.

Notation "x <- m ;; k" := (bind m (fun x => k))
  (at level 61, m at next level, right associativity).
Notation "m ;;; k" := (bind m (fun _ => k))
  (at level 61, right associativity).

Definition newline : string := String (Ascii.ascii_of_nat 10) EmptyString.

(** ** Virtual memory at page granularity

    What the system calls do to memory when they succeed, as the platform
    documents it: commit and decommit act on every page that holds at
    least one byte of [lpAddress, lpAddress + dwSize); a page that goes
    from decommitted to committed reads as zero; pages that are already
    committed keep their contents.  Reservations are not tracked, so a
    size of 0 covers no page: the platform's special meaning of a
    zero-size decommit at the base of a reservation is left out, and
    what is proved below about memory after a decommit is stated for
    regions of positive size. *)
Section VirtualMemory.
Variable page_size : Z.

Definition covers (p size k : Z) : bool :=
  (0 <? size) && (p / page_size <=? k) && (k <=? (p + size - 1) / page_size).

Definition decommit_pages (p size : Z) (m : Memory) : Memory :=
  {| committed := fun k => if covers p size k then false else committed m k;
     bytes := bytes m |}.

Definition commit_pages (p size : Z) (m : Memory) : Memory :=
  {| committed := fun k => covers p size k || committed m k;
     bytes := fun a =>
       if covers p size (a / page_size) && negb (committed m (a / page_size))
       then 0 else bytes m a |}.

Definition fill (p ch size : Z) (m : Memory) : Memory :=
  {| committed := committed m;
     bytes := fun a => if (p <=? a) && (a <? p + size) then ch else bytes m a |}.

Definition page_list (p size : Z) : list Z :=
  if 0 <? size then
    map (fun i => p / page_size + Z.of_nat i)
        (seq 0 (Z.to_nat ((p + size - 1) / page_size - p / page_size + 1)))
  else [].

Definition range_committed (m : Memory) (p size : Z) : bool :=
  forallb (committed m) (page_list p size).

(** How many bytes from [p] on lie before the first page of the range
    that is not committed: what a fill in ascending order writes before
    it faults. *)
Definition committed_prefix (m : Memory) (p size : Z) : Z :=
  match find (fun k => negb (committed m k)) (page_list p size) with
  | Some k => Z.max 0 (k * page_size - p)
  | None => size
  end.

(** Reading one byte, as the caller observes memory. *)
Definition load (m : Memory) (a : Z) : option Z :=
  if committed m (a / page_size) then Some (bytes m a) else None.
End VirtualMemory.

(** Modelled from the spec: [is_aligned_block] lives in [ds/address.h],
    which is not part of the sources at hand.  The spec's data model says a
    region is page-aligned when its base address is a multiple of the page
    size and its size is a multiple of the page size. *)
Definition is_aligned_block (alignment p size : Z) : bool :=
  (p mod alignment =? 0) && (size mod alignment =? 0).

(** Modelled from the spec: [PalNotifier::register_notification] lives in
    [pal_consts.h], which is not part of the sources at hand.  The spec
    says registering appends the client to the fan-out list. *)
Definition register_notification (callback : Z) (l : list Z) : list Z :=
  l ++ [callback].

(** ** The member functions of [PALWindows] *)
Section PALWindows.
(** Constants of the rest of the allocator ([mem/allocconfig.h],
    [pal_consts.h]), whose values this header does not fix. *)
Variable OS_PAGE_SIZE : Z.
Variables LowMemoryNotification AlignedAllocation : Z.
Variable cfg : Build.
Variable os : OS.

(** *** Primitives: system and library calls *)

Definition assert_ (c : bool) : PAL unit :=
  fun w => if NDEBUG cfg then Ret tt w
           else if c then Ret tt w else AssertFail w.

(** [registered_for_notifications.exchange(v)]: one atomic step. *)
Definition exchange (v : bool) : PAL bool :=
  fun w => Ret (registered_for_notifications w) (with_registered v w).

Definition CreateMemoryResourceNotification (ty : Z) : PAL Z :=
  fun w => Ret (os_CreateMemoryResourceNotification os w ty)
               (log_call (CallCreateMemoryResourceNotification ty) w).

Definition RegisterWaitForSingleObject (h ms flags : Z) : PAL bool :=
  fun w => Ret (os_RegisterWaitForSingleObject os w h ms flags)
               (log_call (CallRegisterWaitForSingleObject h ms flags) w).

Definition QueryMemoryResourceNotification (h : Z) : PAL (bool * option Z) :=
  fun w => Ret (os_QueryMemoryResourceNotification os w h)
               (log_call (CallQueryMemoryResourceNotification h) w).

Definition VirtualFree (p size ty : Z) : PAL bool :=
  fun w =>
    let ok := os_VirtualFree os w p size ty in
    let w1 := log_call (CallVirtualFree p size ty) w in
    if ok && (ty =? MEM_DECOMMIT)
    then Ret ok (with_memory (decommit_pages OS_PAGE_SIZE p size (memory w)) w1)
    else Ret ok w1.

Definition commit_if_asked (flags base size : Z) (w : World) : World :=
  if (base =? nullptr) || (Z.land flags MEM_COMMIT =? 0) then w
  else with_memory (commit_pages OS_PAGE_SIZE base size (memory w)) w.

Definition VirtualAlloc (p size flags protect : Z) : PAL Z :=
  fun w =>
    let r := os_VirtualAlloc os w p size flags protect in
    let w1 := log_call (CallVirtualAlloc p size flags protect) w in
    if r =? nullptr then Ret r w1
    else Ret r (commit_if_asked flags (if p =? nullptr then r else p) size w1).

Definition VirtualAlloc2FromApp
    (size flags protect : Z) (req : MEM_ADDRESS_REQUIREMENTS) : PAL Z :=
  fun w =>
    let r := os_VirtualAlloc2FromApp os w size flags protect req in
    let w1 :=
      log_call (CallVirtualAlloc2FromApp nullptr nullptr size flags protect req 1) w in
    Ret r (commit_if_asked flags r size w1).

Definition memset (p ch size : Z) : PAL unit :=
  fun w =>
    let w1 := log_call (CallMemset p ch size) w in
    if range_committed OS_PAGE_SIZE (memory w) p size
    then Ret tt (with_memory (fill p ch size (memory w)) w1)
    else Fault (with_memory
                  (fill p ch (committed_prefix OS_PAGE_SIZE (memory w) p size)
                     (memory w)) w1).

(** *** Lines 45-69: the constructor *)
Definition PALWindows_ctor : PAL unit :=
  old <- exchange true ;;
  if negb old then
    h <- CreateMemoryResourceNotification LowMemoryResourceNotification ;;
    (fun w => Ret tt (with_lowMemoryObject h w)) ;;;
    (fun w =>
       RegisterWaitForSingleObject (lowMemoryObject w) INFINITE WT_EXECUTEDEFAULT w) ;;;
    ret tt
  else ret tt.

(** *** Lines 75-79 *)
Definition pal_features : Z :=
  Z.lor LowMemoryNotification
        (if PLATFORM_HAS_VIRTUALALLOC2 cfg then AlignedAllocation else 0).

(** *** Lines 85-90.  [result] is declared without an initialiser, the
    call may store into it, and its value converted to [bool] is
    returned; the [BOOL] the call returns is dropped. *)
Definition expensive_low_memory_check : PAL bool :=
  fun w =>
    let result := os_indeterminate os w in
    (r <- QueryMemoryResourceNotification (lowMemoryObject w) ;;
     let result := match snd r with Some v => v | None => result end in
     ret (negb (result =? 0))) w.

(** *** Lines 97-101 *)
Definition register_for_low_memory_callback (callback : Z) : PAL unit :=
  fun w => Ret tt (with_callbacks
                     (register_notification callback (low_memory_callbacks w)) w).

(** *** Lines 103-108: [puts], [fflush], [abort] *)
Definition error {A} (str : string) : PAL A :=
  fun w => Abort str (print str w).

(** *** Lines 111-119 *)
Definition notify_not_using (p size : Z) : PAL unit :=
  assert_ (is_aligned_block OS_PAGE_SIZE p size) ;;;
  ok <- VirtualFree p size MEM_DECOMMIT ;;
  if negb ok then error "VirtualFree failed" else ret tt.

(** *** Lines 122-131 *)
Definition notify_using (zero_mem : ZeroMem) (p size : Z) : PAL unit :=
  assert_ (is_aligned_block OS_PAGE_SIZE p size || ZeroMem_eqb zero_mem NoZero) ;;;
  r <- VirtualAlloc p size MEM_COMMIT PAGE_READWRITE ;;
  if r =? nullptr then error "out of memory" else ret tt.

(** *** Lines 134-145 *)
Definition zero (page_aligned : bool) (p size : Z) : PAL unit :=
  if page_aligned || is_aligned_block OS_PAGE_SIZE p size then
    assert_ (is_aligned_block OS_PAGE_SIZE p size) ;;;
    notify_not_using p size ;;;
    notify_using YesZero p size
  else memset p 0 size.

(** *** Lines 148-174: [reserve] under [USE_SYSTEMATIC_TESTING] *)

(** The initial value of the function-local static [bump_ptr], which
    [systematic_bump_ptr()] hands out by reference; the model reads and
    writes the field [bump_ptr] of the world. *)
Definition systematic_bump_ptr_init : Z := 0x400000000000.

Definition reserve_flags (committed : bool) : Z :=
  if committed then Z.lor MEM_RESERVE MEM_COMMIT else MEM_RESERVE.

(** One turn of the [do ... while] per unit of fuel; [retries] is the
    source's counter, decremented in [size_t]. *)
Fixpoint reserve_loop (fuel : nat) (size flags retries : Z) : PAL Z :=
  fun w =>
    (p <- VirtualAlloc (bump_ptr w) size flags PAGE_READWRITE ;;
     (fun w' => Ret tt (with_bump_ptr (size_t (bump_ptr w' + size)) w')) ;;;
     let retries := size_t (retries - 1) in
     if (p =? nullptr) && (0 <? retries) then
       match fuel with
       | O => fun w' => OutOfFuel w'
       | S fuel' => reserve_loop fuel' size flags retries
       end
     else ret p) w.

Definition reserve_simulated (committed : bool) (size : Z) : PAL Z :=
  reserve_loop 1000 size (reserve_flags committed) 1000.

(** *** Lines 176-209: [reserve] under [PLATFORM_HAS_VIRTUALALLOC2] *)
Definition min_align : Z := 64 * 1024.

Definition reserve_extended (committed : bool) (size align : Z) : PAL Z :=
  let flags := reserve_flags committed in
  let align := if align <? min_align then min_align else align in
  let addressReqs :=
    {| LowestStartingAddress := nullptr; HighestEndingAddress := nullptr;
       Alignment := align |} in
  r <- VirtualAlloc2FromApp size flags PAGE_READWRITE addressReqs ;;
  if r =? nullptr then error ("Failed to allocate memory" ++ newline)
  else ret r.

(** *** Lines 211-225: [reserve] otherwise *)
Definition reserve_plain (committed : bool) (size : Z) : PAL Z :=
  let flags := reserve_flags committed in
  r <- VirtualAlloc nullptr size flags PAGE_READWRITE ;;
  if r =? nullptr then error ("Failed to allocate memory" ++ newline)
  else ret r.

(** The [reserve] a build contains.  [align] is a parameter of the
    extended variant only. *)
Definition reserve_with (s : ReservationStrategy)
    (committed : bool) (size align : Z) : PAL Z :=
  match s with
  | Simulated => reserve_simulated committed size
  | ExtendedAligned => reserve_extended committed size align
  | Plain => reserve_plain committed size
  end.

Definition reserve := reserve_with (strategy cfg).

(** *** The public interface, one constructor per member function *)
Inductive Op :=
| OpConstruct
| OpExpensiveLowMemoryCheck
| OpRegisterForLowMemoryCallback (callback : Z)
| OpNotifyNotUsing (p size : Z)
| OpNotifyUsing (zero_mem : ZeroMem) (p size : Z)
| OpZero (page_aligned : bool) (p size : Z)
| OpReserve (committed : bool) (size align : Z).

Definition run_op (o : Op) : PAL unit :=
  match o with
  | OpConstruct => PALWindows_ctor
  | OpExpensiveLowMemoryCheck => expensive_low_memory_check ;;; ret tt
  | OpRegisterForLowMemoryCallback c => register_for_low_memory_callback c
  | OpNotifyNotUsing p size => notify_not_using p size
  | OpNotifyUsing z p size => notify_using z p size
  | OpZero a p size => zero a p size
  | OpReserve c size align => reserve c size align ;;; ret tt
  end.

(** A client program: member functions called one after another, until
    one of them ends the process. *)
Fixpoint run_ops (l : list Op) : PAL unit :=
  match l with
  | [] => ret tt
  | o :: l' => run_op o ;;; run_ops l'
  end.

(** *** The constructor under interleaving

    Threads that construct [PALWindows] objects at the same time.  Each
    thread is at one of four points of the constructor; the atomic
    exchange and each system call are single steps, and a schedule says
    which thread moves next. *)
Inductive CtorPC := AtExchange | AtCreate | AtRegister | Constructed.

Definition ctor_step (pc : CtorPC) : PAL CtorPC :=
  match pc with
  | AtExchange =>
      old <- exchange true ;;
      ret (if negb old then AtCreate else Constructed)
  | AtCreate =>
      h <- CreateMemoryResourceNotification LowMemoryResourceNotification ;;
      (fun w => Ret tt (with_lowMemoryObject h w)) ;;;
      ret AtRegister
  | AtRegister =>
      (fun w =>
         RegisterWaitForSingleObject (lowMemoryObject w) INFINITE WT_EXECUTEDEFAULT w) ;;;
      ret Constructed
  | Constructed => ret Constructed
  end.

(** [sys_log] attributes every call to the thread that made it;
    [sys_flips] lists the threads whose exchange returned [false]. *)
Record Sys := {
  sys_world : World;
  sys_threads : nat -> CtorPC;
  sys_log : list (nat * Call);
  sys_flips : list nat
}.

Definition sys_init (w : World) : Sys :=
  {| sys_world := w; sys_threads := fun _ => AtExchange;
     sys_log := []; sys_flips := [] |}.

Definition sys_step (s : Sys) (i : nat) : Sys :=
  let pc := sys_threads s i in
  match ctor_step pc (sys_world s) with
  | Ret pc' w' =>
      {| sys_world := w';
         sys_threads := fun j => if Nat.eqb j i then pc' else sys_threads s j;
         sys_log := sys_log s ++
           map (pair i) (skipn (List.length (calls (sys_world s))) (calls w'));
         sys_flips :=
           match pc, pc' with
           | AtExchange, AtCreate => sys_flips s ++ [i]
           | _, _ => sys_flips s
           end |}
  | _ => s
  end.

Definition run_schedule (sched : list nat) (s : Sys) : Sys :=
  fold_left sys_step sched s.
End PALWindows.

(** Counting the two subscription calls in a log. *)
Definition is_create (c : Call) : bool :=
  match c with CallCreateMemoryResourceNotification _ => true | _ => false end.

Definition is_register (c : Call) : bool :=
  match c with CallRegisterWaitForSingleObject _ _ _ => true | _ => false end.

Definition is_subscription (c : Call) : bool := is_create c || is_register c.

Definition is_memset (c : Call) : bool :=
  match c with CallMemset _ _ _ => true | _ => false end.

Definition count {A} (f : A -> bool) (l : list A) : nat :=
  List.length (filter f l).

(** ** Concrete environments, for running the model *)

(** The process at start-up: statics zero-initialised, the bump pointer at
    its initialiser, no page committed. *)
Definition initial_world : World :=
  {| registered_for_notifications := false;
     lowMemoryObject := 0;
     low_memory_callbacks := [];
     bump_ptr := systematic_bump_ptr_init;
     memory := {| committed := fun _ => false; bytes := fun _ => 0 |};
     calls := [];
     stdout := [] |}.

(** A system that refuses everything. *)
Definition failing_os : OS :=
  {| os_CreateMemoryResourceNotification := fun _ _ => 0;
     os_RegisterWaitForSingleObject := fun _ _ _ _ => false;
     os_QueryMemoryResourceNotification := fun _ _ => (false, None);
     os_VirtualFree := fun _ _ _ _ => false;
     os_VirtualAlloc := fun _ _ _ _ _ => 0;
     os_VirtualAlloc2FromApp := fun _ _ _ _ _ => 0;
     os_indeterminate := fun _ => 0 |}.

(** A system that grants everything: allocation at the requested address,
    or at a fixed one when the caller leaves the choice to the system. *)
Definition granting_os : OS :=
  {| os_CreateMemoryResourceNotification := fun _ _ => 0x44;
     os_RegisterWaitForSingleObject := fun _ _ _ _ => true;
     os_QueryMemoryResourceNotification := fun _ _ => (true, Some 1);
     os_VirtualFree := fun _ _ _ _ => true;
     os_VirtualAlloc := fun _ p _ _ _ => if p =? 0 then 0x10000 else p;
     os_VirtualAlloc2FromApp := fun _ _ _ _ _ => 0x10000;
     os_indeterminate := fun _ => 0 |}.

(** The same as [failing_os], with garbage [g] on the stack. *)
Definition failing_os_with (g : Z) : OS :=
  {| os_CreateMemoryResourceNotification := fun _ _ => 0;
     os_RegisterWaitForSingleObject := fun _ _ _ _ => false;
     os_QueryMemoryResourceNotification := fun _ _ => (false, None);
     os_VirtualFree := fun _ _ _ _ => false;
     os_VirtualAlloc := fun _ _ _ _ _ => 0;
     os_VirtualAlloc2FromApp := fun _ _ _ _ _ => 0;
     os_indeterminate := fun _ => g |}.

(** A system that refuses the first two calls the process makes and grants
    every later one, at the requested address when there is one. *)
Definition late_granting_os : OS :=
  {| os_CreateMemoryResourceNotification := fun _ _ => 0x44;
     os_RegisterWaitForSingleObject := fun _ _ _ _ => true;
     os_QueryMemoryResourceNotification := fun _ _ => (true, Some 1);
     os_VirtualFree := fun _ _ _ _ => true;
     os_VirtualAlloc := fun w p _ _ _ =>
       if (List.length (calls w) <? 2)%nat then 0
       else if p =? 0 then 0x10000 else p;
     os_VirtualAlloc2FromApp := fun _ _ _ _ _ => 0x10000;
     os_indeterminate := fun _ => 0 |}.

Definition debug_build : Build :=
  {| NTDDI_WIN10_RS5 := Some 0x0A000006; NTDDI_VERSION := 0x0A000006;
     WINVER := 0x0A00; _WIN32_WINNT_WIN10 := 0x0A00;
     USE_SYSTEMATIC_TESTING := false; NDEBUG := false |}.

Definition release_build : Build :=
  {| NTDDI_WIN10_RS5 := Some 0x0A000006; NTDDI_VERSION := 0x0A000006;
     WINVER := 0x0A00; _WIN32_WINNT_WIN10 := 0x0A00;
     USE_SYSTEMATIC_TESTING := false; NDEBUG := true |}.

Definition testing_build : Build :=
  {| NTDDI_WIN10_RS5 := Some 0x0A000006; NTDDI_VERSION := 0x0A000006;
     WINVER := 0x0A00; _WIN32_WINNT_WIN10 := 0x0A00;
     USE_SYSTEMATIC_TESTING := true; NDEBUG := false |}.

(** A world with two committed pages of 4096 bytes at 0x10000, all bytes
    0xAA. *)
Definition dirty_world : World :=
  with_memory
    {| committed := fun k => (16 <=? k) && (k <=? 17); bytes := fun _ => 0xAA |}
    initial_world.

(** What a member function returned, if it returned. *)
Definition returned {A} (o : Outcome A) : option A :=
  match o with Ret a _ => Some a | _ => None end.

(** The reservation attempts of the simulated [reserve]: [n] calls, the
    [k]-th at the cursor advanced [k] times by [size] in [size_t]. *)
Definition attempt_calls (size flags cursor : Z) (n : nat) : list Call :=
  map (fun k => CallVirtualAlloc (size_t (cursor + Z.of_nat k * size)) size flags
                  PAGE_READWRITE)
      (seq 0 n).

(** Two worlds with the same registration state: the flag, the handle and
    the number of subscription calls made so far. *)
Definition steady (w w' : World) : Prop :=
  registered_for_notifications w' = registered_for_notifications w
  /\ lowMemoryObject w' = lowMemoryObject w
  /\ count is_subscription (calls w') = count is_subscription (calls w).

(** A computation that leaves the registration state alone, however it
    ends. *)
Definition keeps {A} (m : PAL A) : Prop := forall w, steady w (final (m w)).

(** The shape of every reachable state of the interleaved constructors
    that start with the flag clear: either nobody has flipped the flag and
    nothing has happened, or exactly one thread [i] has, every other
    thread is before its exchange or done, and the log holds exactly the
    calls [i] has made so far. *)
Definition sys_inv (s : Sys) : Prop :=
  match sys_flips s with
  | [] =>
      registered_for_notifications (sys_world s) = false
      /\ (forall j, sys_threads s j = AtExchange)
      /\ sys_log s = []
  | [i] =>
      registered_for_notifications (sys_world s) = true
      /\ (forall j, j <> i ->
            sys_threads s j = AtExchange \/ sys_threads s j = Constructed)
      /\ ((sys_threads s i = AtCreate /\ sys_log s = [])
          \/ (sys_threads s i = AtRegister
              /\ sys_log s =
                 [(i, CallCreateMemoryResourceNotification
                        LowMemoryResourceNotification)])
          \/ (sys_threads s i = Constructed
              /\ sys_log s =
                 [(i, CallCreateMemoryResourceNotification
                        LowMemoryResourceNotification);
                  (i, CallRegisterWaitForSingleObject
                        (lowMemoryObject (sys_world s)) INFINITE
                        WT_EXECUTEDEFAULT)]))
  | _ => False
  end.

(** A mask contains a feature bit. *)
Definition contains (mask bit : Z) : Prop := Z.land mask bit = bit.

(** ** Vocabulary for the further properties *)

(** The world after one turn of the simulated [reserve]'s loop: the
    attempt at the cursor, then the cursor moved on by [size]. *)
Definition after_attempt (ps : Z) (os : OS) (size flags : Z) (w : World) : World :=
  let w1 := final (VirtualAlloc ps os (bump_ptr w) size flags PAGE_READWRITE w) in
  with_bump_ptr (size_t (bump_ptr w1 + size)) w1.

(** A relation between the world before and the world after that a
    computation keeps, however it ends. *)
Definition frame (R : World -> World -> Prop) {A} (m : PAL A) : Prop :=
  forall w, R w (final (m w)).

(** The part [f] of the world is the same before and after. *)
Definition same {X} (f : World -> X) : World -> World -> Prop :=
  fun w w' => f w' = f w.

(** Output happens on the fatal path only: a computation that ends in
    [error] has printed its message and nothing else, any other has
    printed nothing. *)
Definition prints_only_to_die {A} (w : World) (o : Outcome A) : Prop :=
  match o with
  | Abort msg w' => stdout w' = stdout w ++ [msg]
  | Ret _ w' | AssertFail w' | Fault w' | OutOfFuel w' => stdout w' = stdout w
  end.

Definition quiet {A} (m : PAL A) : Prop := forall w, prints_only_to_die w (m w).

(** How far a constructing thread has come. *)
Definition pc_rank (pc : CtorPC) : nat :=
  match pc with
  | AtExchange => 0 | AtCreate => 1 | AtRegister => 2 | Constructed => 3
  end.

Definition is_reserve_op (o : Op) : bool :=
  match o with OpReserve _ _ _ => true | _ => false end.

Definition is_register_op (o : Op) : bool :=
  match o with OpRegisterForLowMemoryCallback _ => true | _ => false end.

(** The member functions of the notifier side whose bodies are in this
    header, which have no business with memory. *)
Definition is_notifier_op (o : Op) : bool :=
  match o with
  | OpConstruct | OpExpensiveLowMemoryCheck => true
  | _ => false
  end.

(** * Properties *)

(** ** Bookkeeping: which fields the primitives touch *)

Lemma skipn_length_app {A} (l l' : list A) : skipn (List.length l) (l ++ l') = l'.
Proof. induction l as [|x l IH]; simpl; auto. Qed.

Lemma count_app {A} (f : A -> bool) (l l' : list A) :
  count f (l ++ l') = (count f l + count f l')%nat.
Proof. unfold count. rewrite filter_app, length_app. reflexivity. Qed.

Lemma calls_commit_if_asked ps flags base size w :
  calls (commit_if_asked ps flags base size w) = calls w.
Proof. unfold commit_if_asked. destruct (_ || _); reflexivity. Qed.

Lemma stdout_commit_if_asked ps flags base size w :
  stdout (commit_if_asked ps flags base size w) = stdout w.
Proof. unfold commit_if_asked. destruct (_ || _); reflexivity. Qed.

Lemma registered_commit_if_asked ps flags base size w :
  registered_for_notifications (commit_if_asked ps flags base size w)
  = registered_for_notifications w.
Proof. unfold commit_if_asked. destruct (_ || _); reflexivity. Qed.

Lemma bump_ptr_commit_if_asked ps flags base size w :
  bump_ptr (commit_if_asked ps flags base size w) = bump_ptr w.
Proof. unfold commit_if_asked. destruct (_ || _); reflexivity. Qed.

Lemma VirtualAlloc_inv ps os p size flags protect w :
  exists w',
    VirtualAlloc ps os p size flags protect w
      = Ret (os_VirtualAlloc os w p size flags protect) w'
    /\ calls w' = calls w ++ [CallVirtualAlloc p size flags protect]
    /\ stdout w' = stdout w
    /\ bump_ptr w' = bump_ptr w
    /\ registered_for_notifications w' = registered_for_notifications w.
Proof.
  unfold VirtualAlloc. destruct (_ =? nullptr); eexists; split; try reflexivity;
    rewrite ?calls_commit_if_asked, ?stdout_commit_if_asked,
      ?bump_ptr_commit_if_asked, ?registered_commit_if_asked; auto.
Qed.

Lemma VirtualAlloc2FromApp_inv ps os size flags protect req w :
  exists w',
    VirtualAlloc2FromApp ps os size flags protect req w
      = Ret (os_VirtualAlloc2FromApp os w size flags protect req) w'
    /\ calls w' = calls w ++
         [CallVirtualAlloc2FromApp nullptr nullptr size flags protect req 1]
    /\ stdout w' = stdout w
    /\ registered_for_notifications w' = registered_for_notifications w.
Proof.
  unfold VirtualAlloc2FromApp. eexists; split; try reflexivity.
  rewrite calls_commit_if_asked, stdout_commit_if_asked,
    registered_commit_if_asked; auto.
Qed.

Lemma VirtualFree_inv ps os p size ty w :
  exists w',
    VirtualFree ps os p size ty w = Ret (os_VirtualFree os w p size ty) w'
    /\ calls w' = calls w ++ [CallVirtualFree p size ty]
    /\ stdout w' = stdout w
    /\ registered_for_notifications w' = registered_for_notifications w.
Proof.
  unfold VirtualFree. destruct (_ && _); eexists; split; try reflexivity; auto.
Qed.

(** ** The alignment floor of the extended [reserve] *)

Lemma reserve_extended_calls ps os committed size align w :
  calls (final (reserve_extended ps os committed size align w)) =
  calls w ++
    [CallVirtualAlloc2FromApp nullptr nullptr size (reserve_flags committed)
       PAGE_READWRITE
       {| LowestStartingAddress := nullptr; HighestEndingAddress := nullptr;
          Alignment := if align <? min_align then min_align else align |} 1].
Proof.
  unfold reserve_extended, bind.
  destruct (VirtualAlloc2FromApp_inv ps os size (reserve_flags committed)
              PAGE_READWRITE
              {| LowestStartingAddress := nullptr; HighestEndingAddress := nullptr;
                 Alignment := if align <? min_align then min_align else align |} w)
    as (w' & -> & Hc & _).
  destruct (_ =? nullptr); simpl; exact Hc.
Qed.

(** C3.  With the extended-alignment [reserve], a requested alignment
    below 64 KiB behaves in every respect as a request for exactly 64 KiB,
    and the one system call it issues carries alignment 64 KiB; an
    alignment of 64 KiB or more is passed to the system call as it is. *)
Theorem reserve_extended_alignment_floor ps os committed size align w :
  (align < 64 * 1024 ->
     reserve_extended ps os committed size align w
       = reserve_extended ps os committed size (64 * 1024) w
     /\ calls (final (reserve_extended ps os committed size align w)) =
        calls w ++
          [CallVirtualAlloc2FromApp nullptr nullptr size (reserve_flags committed)
             PAGE_READWRITE
             {| LowestStartingAddress := nullptr; HighestEndingAddress := nullptr;
                Alignment := 64 * 1024 |} 1])
  /\ (64 * 1024 <= align ->
      calls (final (reserve_extended ps os committed size align w)) =
        calls w ++
          [CallVirtualAlloc2FromApp nullptr nullptr size (reserve_flags committed)
             PAGE_READWRITE
             {| LowestStartingAddress := nullptr; HighestEndingAddress := nullptr;
                Alignment := align |} 1]).
Proof.
  split; intros H.
  - split.
    + unfold reserve_extended.
      replace (align <? min_align) with true
        by (symmetry; apply Z.ltb_lt; unfold min_align; lia).
      reflexivity.
    + rewrite reserve_extended_calls.
      replace (align <? min_align) with true
        by (symmetry; apply Z.ltb_lt; unfold min_align; lia).
      reflexivity.
  - rewrite reserve_extended_calls.
    replace (align <? min_align) with false
      by (symmetry; apply Z.ltb_ge; unfold min_align; lia).
    reflexivity.
Qed.

Lemma reserve_extended_alignment_floor_witness :
  (reserve_extended 4096 granting_os true 4096 16 initial_world
     = reserve_extended 4096 granting_os true 4096 (64 * 1024) initial_world
   /\ calls (final (reserve_extended 4096 granting_os true 4096 16 initial_world)) =
      calls initial_world ++
        [CallVirtualAlloc2FromApp nullptr nullptr 4096 (reserve_flags true)
           PAGE_READWRITE
           {| LowestStartingAddress := nullptr; HighestEndingAddress := nullptr;
              Alignment := 64 * 1024 |} 1])
  /\ calls (final (reserve_extended 4096 granting_os true 4096 (2 ^ 21) initial_world)) =
      calls initial_world ++
        [CallVirtualAlloc2FromApp nullptr nullptr 4096 (reserve_flags true)
           PAGE_READWRITE
           {| LowestStartingAddress := nullptr; HighestEndingAddress := nullptr;
              Alignment := 2 ^ 21 |} 1].
Proof.
  split.
  - apply (reserve_extended_alignment_floor 4096 granting_os true 4096 16 initial_world).
    lia.
  - apply (reserve_extended_alignment_floor 4096 granting_os true 4096 (2 ^ 21)
             initial_world).
    lia.
Defined.

(** ** Entry assertions of the commit controller *)

Lemma notify_not_using_aligned ps cfg os p size w :
  is_aligned_block ps p size = true ->
  calls (final (notify_not_using ps cfg os p size w))
  = calls w ++ [CallVirtualFree p size MEM_DECOMMIT].
Proof.
  intros Ha. unfold notify_not_using, bind, assert_. rewrite Ha.
  destruct (VirtualFree_inv ps os p size MEM_DECOMMIT w) as (w' & E & Hc & _).
  destruct (NDEBUG cfg); rewrite E; destruct (negb _); simpl; exact Hc.
Qed.

Lemma notify_using_NoZero_calls ps cfg os p size w :
  calls (final (notify_using ps cfg os NoZero p size w))
  = calls w ++ [CallVirtualAlloc p size MEM_COMMIT PAGE_READWRITE].
Proof.
  unfold notify_using, bind, assert_. rewrite orb_true_r.
  destruct (VirtualAlloc_inv ps os p size MEM_COMMIT PAGE_READWRITE w)
    as (w' & E & Hc & _).
  destruct (NDEBUG cfg); rewrite E; destruct (_ =? nullptr); simpl; exact Hc.
Qed.

(** C6.  In a build with assertions, [notify_not_using] stops at its
    assertion exactly when the region is not page-aligned, whatever else
    holds; [notify_using] with the zeroing policy does the same, while
    [notify_using] with the no-zero policy never stops at its assertion
    and goes on to the commit call for every region, aligned or not. *)
Theorem notify_assertions_asymmetric ps cfg os p size w :
  NDEBUG cfg = false ->
  (notify_not_using ps cfg os p size w = AssertFail w
     <-> is_aligned_block ps p size = false)
  /\ (notify_using ps cfg os YesZero p size w = AssertFail w
     <-> is_aligned_block ps p size = false)
  /\ (forall w', notify_using ps cfg os NoZero p size w <> AssertFail w')
  /\ calls (final (notify_using ps cfg os NoZero p size w))
     = calls w ++ [CallVirtualAlloc p size MEM_COMMIT PAGE_READWRITE].
Proof.
  intros Hdbg. repeat split.
  - unfold notify_not_using, bind, assert_. rewrite Hdbg.
    destruct (is_aligned_block ps p size); auto.
    destruct (VirtualFree_inv ps os p size MEM_DECOMMIT w) as (w' & -> & _).
    destruct (negb _); discriminate.
  - intros Ha. unfold notify_not_using, bind, assert_. rewrite Hdbg, Ha.
    reflexivity.
  - unfold notify_using, bind, assert_. rewrite Hdbg, orb_false_r.
    destruct (is_aligned_block ps p size); auto.
    destruct (VirtualAlloc_inv ps os p size MEM_COMMIT PAGE_READWRITE w)
      as (w' & -> & _).
    destruct (_ =? nullptr); discriminate.
  - intros Ha. unfold notify_using, bind, assert_.
    rewrite Hdbg, Ha. reflexivity.
  - intros w'. unfold notify_using, bind, assert_.
    rewrite Hdbg, orb_true_r.
    destruct (VirtualAlloc_inv ps os p size MEM_COMMIT PAGE_READWRITE w)
      as (w1 & -> & _).
    destruct (_ =? nullptr); discriminate.
  - apply notify_using_NoZero_calls.
Qed.

Lemma notify_assertions_asymmetric_witness :
  notify_not_using 4096 debug_build granting_os 0x10001 16 dirty_world
    = AssertFail dirty_world
  /\ notify_using 4096 debug_build granting_os YesZero 0x10001 16 dirty_world
    = AssertFail dirty_world
  /\ calls (final (notify_using 4096 debug_build granting_os NoZero 0x10001 16
                     dirty_world))
     = calls dirty_world ++ [CallVirtualAlloc 0x10001 16 MEM_COMMIT PAGE_READWRITE].
Proof.
  destruct (notify_assertions_asymmetric 4096 debug_build granting_os 0x10001 16
              dirty_world eq_refl) as (H1 & H2 & _ & H4).
  split; [apply H1; reflexivity | split; [apply H2; reflexivity | exact H4]].
Defined.

(** ** The capability mask *)

Lemma land_pow2_self_lor i x : 0 <= i -> Z.land (Z.lor (2 ^ i) x) (2 ^ i) = 2 ^ i.
Proof.
  intros Hi. apply Z.bits_inj'. intros n Hn.
  rewrite Z.land_spec, Z.lor_spec, Z.pow2_bits_eqb by assumption.
  destruct (i =? n); simpl; auto using andb_false_r.
Qed.

Lemma land_pow2_other i j : 0 <= i -> 0 <= j -> i <> j -> Z.land (2 ^ i) (2 ^ j) <> 2 ^ j.
Proof.
  intros Hi Hj Hij E.
  assert (Hb : Z.testbit (Z.land (2 ^ i) (2 ^ j)) j = Z.testbit (2 ^ j) j)
    by (rewrite E; reflexivity).
  rewrite Z.land_spec, !Z.pow2_bits_eqb in Hb by assumption.
  rewrite Z.eqb_refl, andb_true_r in Hb. apply Z.eqb_eq in Hb. contradiction.
Qed.

Lemma PLATFORM_HAS_VIRTUALALLOC2_spec cfg :
  PLATFORM_HAS_VIRTUALALLOC2 cfg = true <->
  (exists rs5, NTDDI_WIN10_RS5 cfg = Some rs5
               /\ rs5 <= NTDDI_VERSION cfg
               /\ _WIN32_WINNT_WIN10 cfg <= WINVER cfg)
  /\ USE_SYSTEMATIC_TESTING cfg = false.
Proof.
  unfold PLATFORM_HAS_VIRTUALALLOC2. destruct (NTDDI_WIN10_RS5 cfg) as [rs5|].
  - rewrite !andb_true_iff, !Z.leb_le, negb_true_iff. split.
    + intros [[H1 H2] H3]. split; auto. exists rs5; auto.
    + intros [(r & E & H1 & H2) H3]. injection E as ->. auto.
  - split; [discriminate|]. intros [(r & E & _) _]. discriminate.
Qed.

Lemma strategy_extended_iff cfg :
  strategy cfg = ExtendedAligned <-> PLATFORM_HAS_VIRTUALALLOC2 cfg = true.
Proof.
  unfold strategy. destruct (USE_SYSTEMATIC_TESTING cfg) eqn:Et.
  - split; [discriminate|]. intros H.
    apply PLATFORM_HAS_VIRTUALALLOC2_spec in H. destruct H as [_ H]. congruence.
  - destruct (PLATFORM_HAS_VIRTUALALLOC2 cfg); split; auto; discriminate.
Qed.

(** C7.  [pal_features] depends on the build configuration alone.  When
    the two feature constants are distinct single bits, the mask always
    contains the low-memory-notification bit, and it contains the
    aligned-allocation bit exactly when the SDK defines the RS5 version,
    the targeted versions reach it and the build is not a
    systematic-testing build, which is exactly when the extended-alignment
    [reserve] is the one compiled in. *)
Theorem pal_features_bits LowMemoryNotification AlignedAllocation cfg i j :
  0 <= i -> 0 <= j -> i <> j ->
  LowMemoryNotification = 2 ^ i -> AlignedAllocation = 2 ^ j ->
  contains (pal_features LowMemoryNotification AlignedAllocation cfg)
           LowMemoryNotification
  /\ (contains (pal_features LowMemoryNotification AlignedAllocation cfg)
               AlignedAllocation
      <-> (exists rs5, NTDDI_WIN10_RS5 cfg = Some rs5
                       /\ rs5 <= NTDDI_VERSION cfg
                       /\ _WIN32_WINNT_WIN10 cfg <= WINVER cfg)
          /\ USE_SYSTEMATIC_TESTING cfg = false)
  /\ (contains (pal_features LowMemoryNotification AlignedAllocation cfg)
               AlignedAllocation
      <-> strategy cfg = ExtendedAligned).
Proof.
  intros Hi Hj Hij -> ->. unfold contains, pal_features.
  assert (Hiff : Z.land (Z.lor (2 ^ i)
                   (if PLATFORM_HAS_VIRTUALALLOC2 cfg then 2 ^ j else 0)) (2 ^ j)
                 = 2 ^ j <-> PLATFORM_HAS_VIRTUALALLOC2 cfg = true).
  { destruct (PLATFORM_HAS_VIRTUALALLOC2 cfg).
    - split; auto. intros _. rewrite Z.lor_comm. apply land_pow2_self_lor; lia.
    - rewrite Z.lor_0_r. split; [|discriminate].
      intros E. exfalso. exact (land_pow2_other i j Hi Hj Hij E). }
  split; [apply land_pow2_self_lor; lia|]. split.
  - rewrite Hiff. apply PLATFORM_HAS_VIRTUALALLOC2_spec.
  - rewrite Hiff. symmetry. apply strategy_extended_iff.
Qed.

Lemma pal_features_bits_witness :
  contains (pal_features 1 2 release_build) 1
  /\ contains (pal_features 1 2 release_build) 2
  /\ strategy release_build = ExtendedAligned
  /\ ~ contains (pal_features 1 2 testing_build) 2.
Proof.
  pose proof (pal_features_bits 1 2 release_build 0 1
                ltac:(lia) ltac:(lia) ltac:(lia) eq_refl eq_refl) as (H1 & _ & H3).
  pose proof (pal_features_bits 1 2 testing_build 0 1
                ltac:(lia) ltac:(lia) ltac:(lia) eq_refl eq_refl) as (_ & _ & H3').
  split; [exact H1|]. split; [apply H3; reflexivity|].
  split; [reflexivity|]. intros H. apply H3' in H. discriminate.
Defined.

(** ** [zero] with the page-aligned hint *)

Lemma zero_decommit_path_calls ps cfg os p size w :
  NDEBUG cfg = true \/ is_aligned_block ps p size = true ->
  calls (final ((assert_ cfg (is_aligned_block ps p size) ;;;
                 notify_not_using ps cfg os p size ;;;
                 notify_using ps cfg os YesZero p size) w))
  = calls w ++
      CallVirtualFree p size MEM_DECOMMIT ::
      (if os_VirtualFree os w p size MEM_DECOMMIT
       then [CallVirtualAlloc p size MEM_COMMIT PAGE_READWRITE] else []).
Proof.
  intros H. unfold notify_not_using, notify_using, bind, assert_.
  assert (E : (if NDEBUG cfg then Ret tt w
               else if is_aligned_block ps p size then Ret tt w else AssertFail w)
              = Ret tt w)
    by (destruct H as [-> | ->]; [|destruct (NDEBUG cfg)]; reflexivity).
  rewrite E, E.
  destruct (VirtualFree_inv ps os p size MEM_DECOMMIT w) as (w1 & -> & Hc1 & _).
  destruct (os_VirtualFree os w p size MEM_DECOMMIT); simpl.
  - assert (E1 : (if NDEBUG cfg then Ret tt w1
                  else if is_aligned_block ps p size || false
                       then Ret tt w1 else AssertFail w1) = Ret tt w1)
      by (destruct H as [-> | ->]; [|destruct (NDEBUG cfg)]; reflexivity).
    rewrite E1.
    destruct (VirtualAlloc_inv ps os p size MEM_COMMIT PAGE_READWRITE w1)
      as (w2 & -> & Hc2 & _).
    destruct (_ =? nullptr); simpl; rewrite Hc2, Hc1, <- app_assoc; reflexivity.
  - exact Hc1.
Qed.

(** C8.  [zero<true>] on a region that is not page-aligned never reaches
    [memset].  With assertions it stops at the assertion before any call;
    without them the region goes to the decommit call as it is, followed
    by the commit call when the decommit succeeds.  The same region
    without the hint is filled by [memset]. *)
Theorem zero_hint_skips_alignment_check ps cfg os p size w :
  is_aligned_block ps p size = false ->
  (NDEBUG cfg = false -> zero ps cfg os true p size w = AssertFail w)
  /\ (NDEBUG cfg = true ->
      calls (final (zero ps cfg os true p size w))
      = calls w ++
          CallVirtualFree p size MEM_DECOMMIT ::
          (if os_VirtualFree os w p size MEM_DECOMMIT
           then [CallVirtualAlloc p size MEM_COMMIT PAGE_READWRITE] else []))
  /\ count is_memset (calls (final (zero ps cfg os true p size w)))
     = count is_memset (calls w)
  /\ zero ps cfg os false p size w = memset ps p 0 size w.
Proof.
  intros Ha.
  assert (Hdbg : NDEBUG cfg = false -> zero ps cfg os true p size w = AssertFail w).
  { intros Hd. unfold zero, bind, assert_. simpl. rewrite Hd, Ha. reflexivity. }
  assert (Hrel : NDEBUG cfg = true ->
      calls (final (zero ps cfg os true p size w))
      = calls w ++
          CallVirtualFree p size MEM_DECOMMIT ::
          (if os_VirtualFree os w p size MEM_DECOMMIT
           then [CallVirtualAlloc p size MEM_COMMIT PAGE_READWRITE] else [])).
  { intros Hd. unfold zero. simpl. apply zero_decommit_path_calls. auto. }
  repeat split; auto.
  - destruct (NDEBUG cfg) eqn:Hd.
    + rewrite Hrel by reflexivity. rewrite count_app.
      destruct (os_VirtualFree os w p size MEM_DECOMMIT); unfold count; simpl; lia.
    + rewrite Hdbg by reflexivity. reflexivity.
  - unfold zero. rewrite Ha. reflexivity.
Qed.

Lemma zero_hint_skips_alignment_check_witness :
  zero 4096 debug_build granting_os true 0x10001 16 dirty_world
    = AssertFail dirty_world
  /\ calls (final (zero 4096 release_build granting_os true 0x10001 16 dirty_world))
     = [CallVirtualFree 0x10001 16 MEM_DECOMMIT;
        CallVirtualAlloc 0x10001 16 MEM_COMMIT PAGE_READWRITE]
  /\ calls (final (zero 4096 release_build granting_os false 0x10001 16 dirty_world))
     = [CallMemset 0x10001 0 16].
Proof.
  pose proof (zero_hint_skips_alignment_check 4096 debug_build granting_os
                0x10001 16 dirty_world eq_refl) as (Hd & _).
  pose proof (zero_hint_skips_alignment_check 4096 release_build granting_os
                0x10001 16 dirty_world eq_refl) as (_ & Hr & _ & Hm).
  split; [exact (Hd eq_refl)|]. split; [exact (Hr eq_refl)|].
  rewrite Hm. reflexivity.
Defined.

(** ** The low-memory query *)

(** C10.  [expensive_low_memory_check] always returns a boolean and never
    reaches the error handler.  The value is the out-parameter converted
    to [bool], whatever the call's own result was: when the call stores
    nothing it is the indeterminate initial content of the local, so a
    failed query on a null handle can yield [true] as well as [false]. *)
Theorem expensive_low_memory_check_ignores_status :
  (forall os w, exists b,
      expensive_low_memory_check os w
      = Ret b (log_call (CallQueryMemoryResourceNotification (lowMemoryObject w)) w))
  /\ (forall os w ok,
      os_QueryMemoryResourceNotification os w (lowMemoryObject w) = (ok, None) ->
      expensive_low_memory_check os w
      = Ret (negb (os_indeterminate os w =? 0))
            (log_call (CallQueryMemoryResourceNotification (lowMemoryObject w)) w))
  /\ (forall os w ok v,
      os_QueryMemoryResourceNotification os w (lowMemoryObject w) = (ok, Some v) ->
      expensive_low_memory_check os w
      = Ret (negb (v =? 0))
            (log_call (CallQueryMemoryResourceNotification (lowMemoryObject w)) w))
  /\ (forall b : bool, exists os w w',
      lowMemoryObject w = nullptr
      /\ fst (os_QueryMemoryResourceNotification os w (lowMemoryObject w)) = false
      /\ expensive_low_memory_check os w = Ret b w').
Proof.
  repeat split.
  - intros os w. eexists. reflexivity.
  - intros os w ok H. unfold expensive_low_memory_check, bind,
      QueryMemoryResourceNotification, ret. rewrite H. reflexivity.
  - intros os w ok v H. unfold expensive_low_memory_check, bind,
      QueryMemoryResourceNotification, ret. rewrite H. reflexivity.
  - intros b. exists (failing_os_with (if b then 1 else 0)), initial_world.
    eexists. repeat split. destruct b; reflexivity.
Qed.

Lemma expensive_low_memory_check_ignores_status_witness :
  expensive_low_memory_check (failing_os_with 0xCC) initial_world
  = Ret true (log_call (CallQueryMemoryResourceNotification 0) initial_world)
  /\ expensive_low_memory_check granting_os initial_world
  = Ret true (log_call (CallQueryMemoryResourceNotification 0) initial_world).
Proof.
  destruct expensive_low_memory_check_ignores_status as (_ & Hnone & Hsome & _).
  split.
  - exact (Hnone (failing_os_with 0xCC) initial_world false eq_refl).
  - exact (Hsome granting_os initial_world true 1 eq_refl).
Defined.

(** ** The retry loop of the simulated [reserve] *)

Lemma size_t_range x : 0 <= size_t x < SIZE_T_MODULUS.
Proof. unfold size_t, SIZE_T_MODULUS. apply Z.mod_pos_bound. lia. Qed.

Lemma size_t_small x : 0 <= x < SIZE_T_MODULUS -> size_t x = x.
Proof. unfold size_t. intros H. apply Z.mod_small. exact H. Qed.

Lemma size_t_add_l x y : size_t (size_t x + y) = size_t (x + y).
Proof. unfold size_t. apply Zplus_mod_idemp_l. Qed.

Lemma attempt_calls_S size flags b n :
  0 <= b < SIZE_T_MODULUS ->
  attempt_calls size flags b (S n)
  = CallVirtualAlloc b size flags PAGE_READWRITE
      :: attempt_calls size flags (size_t (b + size)) n.
Proof.
  intros Hb. unfold attempt_calls.
  rewrite <- cons_seq, <- seq_shift. cbn [map]. rewrite map_map. f_equal.
  - f_equal. rewrite <- (size_t_small b) at 2 by exact Hb. f_equal. lia.
  - apply map_ext. intros k. f_equal. rewrite size_t_add_l. f_equal. lia.
Qed.

Lemma attempt_calls_1 size flags b :
  0 <= b < SIZE_T_MODULUS ->
  attempt_calls size flags b 1 = [CallVirtualAlloc b size flags PAGE_READWRITE].
Proof. intros Hb. rewrite attempt_calls_S by exact Hb. reflexivity. Qed.

Lemma reserve_loop_last ps os size flags w w1 p :
  VirtualAlloc ps os (bump_ptr w) size flags PAGE_READWRITE w = Ret p w1 ->
  calls w1 = calls w ++ [CallVirtualAlloc (bump_ptr w) size flags PAGE_READWRITE] ->
  bump_ptr w1 = bump_ptr w ->
  let w' := with_bump_ptr (size_t (bump_ptr w1 + size)) w1 in
  List.length (calls w') = (List.length (calls w) + 1)%nat
  /\ (0 <= bump_ptr w < SIZE_T_MODULUS ->
      calls w' = calls w ++ attempt_calls size flags (bump_ptr w) 1
      /\ bump_ptr w' = size_t (bump_ptr w + Z.of_nat 1 * size)).
Proof.
  intros E Hc Hb w'. subst w'. cbn [calls bump_ptr with_bump_ptr]. split.
  - rewrite Hc, length_app. reflexivity.
  - intros Hr. rewrite attempt_calls_1 by exact Hr. split; [exact Hc|].
    rewrite Hb. f_equal. lia.
Qed.

Lemma reserve_loop_spec ps os size flags :
  forall fuel retries w,
    1 <= retries <= Z.of_nat fuel + 1 -> retries < SIZE_T_MODULUS ->
    exists (n : nat) p w',
      reserve_loop ps os fuel size flags retries w = Ret p w'
      /\ 1 <= Z.of_nat n <= retries
      /\ (p = nullptr -> Z.of_nat n = retries)
      /\ (Z.of_nat n < retries -> p <> nullptr)
      /\ (os_VirtualAlloc os w (bump_ptr w) size flags PAGE_READWRITE <> nullptr ->
          n = 1%nat)
      /\ stdout w' = stdout w
      /\ registered_for_notifications w' = registered_for_notifications w
      /\ List.length (calls w') = (List.length (calls w) + n)%nat
      /\ (0 <= bump_ptr w < SIZE_T_MODULUS ->
          calls w' = calls w ++ attempt_calls size flags (bump_ptr w) n
          /\ bump_ptr w' = size_t (bump_ptr w + Z.of_nat n * size)).
Proof.
  induction fuel as [|fuel IH]; intros retries w Hr Hm.
  - assert (retries = 1) by lia. subst retries.
    destruct (VirtualAlloc_inv ps os (bump_ptr w) size flags PAGE_READWRITE w)
      as (w1 & E & Hc & Hs & Hb & Hreg).
    destruct (reserve_loop_last ps os size flags w w1 _ E Hc Hb) as [Hlen Hdet].
    exists 1%nat. cbn [reserve_loop]. unfold bind. rewrite E.
    change (size_t (1 - 1)) with 0. rewrite andb_false_r. unfold ret.
    do 2 eexists. split; [reflexivity|].
    split; [lia|]. split; [reflexivity|]. split; [lia|]. split; [reflexivity|].
    split; [exact Hs|]. split; [exact Hreg|]. split; [exact Hlen|exact Hdet].
  - destruct (VirtualAlloc_inv ps os (bump_ptr w) size flags PAGE_READWRITE w)
      as (w1 & E & Hc & Hs & Hb & Hreg).
    destruct (reserve_loop_last ps os size flags w w1 _ E Hc Hb) as [Hlen1 Hdet1].
    cbn [reserve_loop]. unfold bind. rewrite E.
    rewrite (size_t_small (retries - 1)) by lia.
    set (w2 := with_bump_ptr (size_t (bump_ptr w1 + size)) w1) in *.
    destruct (_ =? nullptr) eqn:Ep; cbn [andb].
    + destruct (0 <? retries - 1) eqn:Egt.
      * apply Z.ltb_lt in Egt.
        destruct (IH (retries - 1) w2 ltac:(lia) ltac:(lia))
          as (n & p & w' & Eloop & Hn & Hnull & Hnz & _ & Hs' & Hreg' & Hlen & Hdet).
        exists (S n), p, w'. split; [exact Eloop|].
        split; [lia|]. split; [intros Hp; specialize (Hnull Hp); lia|].
        split; [intros Hlt; apply Hnz; lia|].
        split; [apply Z.eqb_eq in Ep; intros Hne; contradiction|].
        split; [rewrite Hs'; exact Hs|]. split; [rewrite Hreg'; exact Hreg|].
        split; [rewrite Hlen, Hlen1; lia|].
        intros Hrange. destruct (Hdet1 Hrange) as [Hc2 Hb2].
        assert (Hr2 : 0 <= bump_ptr w2 < SIZE_T_MODULUS)
          by (rewrite Hb2; apply size_t_range).
        destruct (Hdet Hr2) as [Hcalls Hbump]. split.
        -- rewrite Hcalls, Hc2, <- app_assoc, attempt_calls_1 by exact Hrange.
           rewrite (attempt_calls_S size flags (bump_ptr w) n) by exact Hrange.
           rewrite Hb2. replace (Z.of_nat 1 * size) with size by lia.
           reflexivity.
        -- rewrite Hbump, Hb2, size_t_add_l. f_equal. lia.
      * apply Z.ltb_ge in Egt. assert (retries = 1) by lia. subst retries.
        exists 1%nat. do 2 eexists. split; [reflexivity|].
        split; [lia|]. split; [reflexivity|]. split; [lia|]. split; [reflexivity|].
        split; [exact Hs|]. split; [exact Hreg|]. split; [exact Hlen1|exact Hdet1].
    + apply Z.eqb_neq in Ep.
      exists 1%nat. do 2 eexists. split; [reflexivity|].
      split; [lia|]. split; [intros Hp; contradiction|].
      split; [intros _; exact Ep|]. split; [reflexivity|].
      split; [exact Hs|]. split; [exact Hreg|]. split; [exact Hlen1|exact Hdet1].
Qed.

Lemma after_attempt_eq ps os size flags w w1 r :
  VirtualAlloc ps os (bump_ptr w) size flags PAGE_READWRITE w = Ret r w1 ->
  with_bump_ptr (size_t (bump_ptr w1 + size)) w1 = after_attempt ps os size flags w.
Proof. intros E. unfold after_attempt. rewrite E. reflexivity. Qed.

Lemma reserve_loop_first_success ps os size flags :
  forall fuel retries w,
    1 <= retries <= Z.of_nat fuel + 1 -> retries < SIZE_T_MODULUS ->
    let world k := Nat.iter k (after_attempt ps os size flags) w in
    let answer k :=
      os_VirtualAlloc os (world k) (bump_ptr (world k)) size flags PAGE_READWRITE in
    exists n : nat,
      1 <= Z.of_nat n <= retries
      /\ reserve_loop ps os fuel size flags retries w
         = Ret (answer (n - 1)%nat) (world n)
      /\ (forall k, (k < n - 1)%nat -> answer k = nullptr)
      /\ (Z.of_nat n < retries -> answer (n - 1)%nat <> nullptr).
Proof.
  induction fuel as [|fuel IH]; intros retries w Hr Hm world answer.
  - assert (retries = 1) by lia. subst retries.
    destruct (VirtualAlloc_inv ps os (bump_ptr w) size flags PAGE_READWRITE w)
      as (w1 & E & _).
    exists 1%nat. split; [lia|]. split.
    + cbn [reserve_loop]. unfold bind. rewrite E.
      change (size_t (1 - 1)) with 0. rewrite andb_false_r. unfold ret.
      rewrite (after_attempt_eq ps os size flags w w1 _ E). reflexivity.
    + split; [intros k Hk; lia | lia].
  - destruct (VirtualAlloc_inv ps os (bump_ptr w) size flags PAGE_READWRITE w)
      as (w1 & E & _).
    pose proof (after_attempt_eq ps os size flags w w1 _ E) as Hw2.
    cbn [reserve_loop]. unfold bind. rewrite E, Hw2.
    rewrite (size_t_small (retries - 1)) by lia.
    destruct (_ =? nullptr) eqn:Ep; cbn [andb].
    + apply Z.eqb_eq in Ep. destruct (0 <? retries - 1) eqn:Egt.
      * apply Z.ltb_lt in Egt.
        destruct (IH (retries - 1) (after_attempt ps os size flags w)
                    ltac:(lia) ltac:(lia)) as (n & Hn & Eloop & Hfail & Hlast).
        assert (Hshift : forall k,
                  Nat.iter k (after_attempt ps os size flags)
                    (after_attempt ps os size flags w) = world (S k))
          by (intros k; unfold world; rewrite Nat.iter_succ_r; reflexivity).
        exists (S n). split; [lia|]. split; [|split].
        -- rewrite Eloop. rewrite !Hshift.
           replace (S n - 1)%nat with (S (n - 1)) by lia. reflexivity.
        -- intros k Hk. destruct k as [|k]; [exact Ep|].
           unfold answer. rewrite <- Hshift. apply Hfail. lia.
        -- intros Hlt. unfold answer.
           replace (S n - 1)%nat with (S (n - 1)) by lia.
           rewrite <- Hshift. apply Hlast. lia.
      * apply Z.ltb_ge in Egt. assert (retries = 1) by lia. subst retries.
        exists 1%nat. split; [lia|]. split; [reflexivity|].
        split; [intros k Hk; lia | lia].
    + apply Z.eqb_neq in Ep.
      exists 1%nat. split; [lia|]. split; [reflexivity|].
      split; [intros k Hk; lia | intros _; exact Ep].
Qed.

Lemma after_attempt_facts ps os size flags w :
  calls (after_attempt ps os size flags w)
  = calls w ++ [CallVirtualAlloc (bump_ptr w) size flags PAGE_READWRITE]
  /\ stdout (after_attempt ps os size flags w) = stdout w
  /\ bump_ptr (after_attempt ps os size flags w) = size_t (bump_ptr w + size).
Proof.
  unfold after_attempt.
  destruct (VirtualAlloc_inv ps os (bump_ptr w) size flags PAGE_READWRITE w)
    as (w1 & -> & Hc & Hs & Hb & _).
  cbn [final calls stdout bump_ptr with_bump_ptr]. rewrite Hb. auto.
Qed.

Lemma attempts_stdout ps os size flags w n :
  stdout (Nat.iter n (after_attempt ps os size flags) w) = stdout w.
Proof.
  induction n as [|n IH]; [reflexivity|]. rewrite Nat.iter_succ.
  destruct (after_attempt_facts ps os size flags
              (Nat.iter n (after_attempt ps os size flags) w)) as (_ & Hs & _).
  rewrite Hs. exact IH.
Qed.

Lemma attempt_calls_snoc size flags b n :
  attempt_calls size flags b (S n)
  = attempt_calls size flags b n
    ++ [CallVirtualAlloc (size_t (b + Z.of_nat n * size)) size flags PAGE_READWRITE].
Proof. unfold attempt_calls. rewrite seq_S, map_app. reflexivity. Qed.

Lemma attempts_closed_form ps os size flags w n :
  0 <= bump_ptr w < SIZE_T_MODULUS ->
  bump_ptr (Nat.iter n (after_attempt ps os size flags) w)
  = size_t (bump_ptr w + Z.of_nat n * size)
  /\ calls (Nat.iter n (after_attempt ps os size flags) w)
     = calls w ++ attempt_calls size flags (bump_ptr w) n.
Proof.
  intros Hrange. induction n as [|n [IHb IHc]].
  - change (Nat.iter 0 (after_attempt ps os size flags) w) with w. split.
    + rewrite Z.add_0_r. symmetry. apply size_t_small. exact Hrange.
    + unfold attempt_calls. cbn. symmetry. apply app_nil_r.
  - rewrite Nat.iter_succ.
    destruct (after_attempt_facts ps os size flags
                (Nat.iter n (after_attempt ps os size flags) w)) as (Hc & _ & Hb).
    split.
    + rewrite Hb, IHb, size_t_add_l. f_equal. lia.
    + rewrite Hc, IHc, IHb, attempt_calls_snoc, <- app_assoc. reflexivity.
Qed.

(** C5 (as amended).  Write world(k) for the world after [k] turns of
    the loop (an attempt at the cursor, then the cursor moved on by
    [size]) and answer(k) for what the system returns to the attempt made
    in world(k).  Starting from a cursor in the range of [size_t], the
    simulated [reserve] always returns, after [n] attempts with
    1 <= n <= 1000: it returns answer(n-1) in world(n); every earlier
    answer was null, so it retries on failure only, and stops at the
    first success or at the 1000th attempt.  After [k] attempts the
    cursor is the starting cursor plus [k * size] in [size_t] arithmetic,
    that is, modulo 2^64, whatever the answers were, and attempt [k] is
    made there.  A null result means all 1000 attempts were made and the
    cursor has advanced by [1000 * size] modulo 2^64, which is exactly
    [1000 * size] whenever that sum stays below 2^64. *)
Theorem reserve_simulated_bounded_retry ps os committed size w :
  0 <= bump_ptr w < SIZE_T_MODULUS ->
  let flags := reserve_flags committed in
  let world k := Nat.iter k (after_attempt ps os size flags) w in
  let answer k :=
    os_VirtualAlloc os (world k) (bump_ptr (world k)) size flags PAGE_READWRITE in
  exists n : nat,
    (1 <= n <= 1000)%nat
    /\ reserve_simulated ps os committed size w = Ret (answer (n - 1)%nat) (world n)
    /\ (forall k, (k < n - 1)%nat -> answer k = nullptr)
    /\ ((n < 1000)%nat -> answer (n - 1)%nat <> nullptr)
    /\ (forall k, bump_ptr (world k) = size_t (bump_ptr w + Z.of_nat k * size))
    /\ calls (world n) = calls w ++ attempt_calls size flags (bump_ptr w) n
    /\ (answer (n - 1)%nat = nullptr ->
        n = 1000%nat
        /\ bump_ptr (world n) = size_t (bump_ptr w + 1000 * size)
        /\ (0 <= size -> bump_ptr w + 1000 * size < SIZE_T_MODULUS ->
            bump_ptr (world n) = bump_ptr w + 1000 * size)).
Proof.
  intros Hrange flags world answer. unfold reserve_simulated.
  destruct (reserve_loop_first_success ps os size flags 1000 1000 w)
    as (n & Hn & E & Hfail & Hlast); [lia | unfold SIZE_T_MODULUS; lia |].
  fold world in E, Hfail, Hlast. fold answer in E, Hfail, Hlast.
  assert (Hcursor : forall k,
            bump_ptr (world k) = size_t (bump_ptr w + Z.of_nat k * size))
    by (intros k; apply (attempts_closed_form ps os size flags w k Hrange)).
  exists n. split; [lia|]. split; [exact E|]. split; [exact Hfail|].
  split; [intros Hlt; apply Hlast; lia|]. split; [exact Hcursor|].
  split; [apply (attempts_closed_form ps os size flags w n Hrange)|].
  intros Hnull.
  assert (Hn1000 : n = 1000%nat).
  { destruct (Nat.eq_dec n 1000) as [H | H]; [exact H|].
    exfalso. apply Hlast; [lia | exact Hnull]. }
  split; [exact Hn1000|]. rewrite Hcursor, Hn1000.
  split; [reflexivity|]. intros Hsize Hfit. apply size_t_small. lia.
Qed.

Lemma reserve_simulated_bounded_retry_witness :
  (let flags := reserve_flags true in
   let world k :=
     Nat.iter k (after_attempt 4096 late_granting_os 4096 flags) initial_world in
   let answer k :=
     os_VirtualAlloc late_granting_os (world k) (bump_ptr (world k)) 4096 flags
       PAGE_READWRITE in
   exists n : nat,
     (1 <= n <= 1000)%nat
     /\ reserve_simulated 4096 late_granting_os true 4096 initial_world
        = Ret (answer (n - 1)%nat) (world n)
     /\ (forall k, (k < n - 1)%nat -> answer k = nullptr)
     /\ ((n < 1000)%nat -> answer (n - 1)%nat <> nullptr)
     /\ (forall k,
         bump_ptr (world k) = size_t (bump_ptr initial_world + Z.of_nat k * 4096))
     /\ calls (world n)
        = calls initial_world ++
          attempt_calls 4096 flags (bump_ptr initial_world) n
     /\ (answer (n - 1)%nat = nullptr ->
         n = 1000%nat
         /\ bump_ptr (world n) = size_t (bump_ptr initial_world + 1000 * 4096)
         /\ (0 <= 4096 -> bump_ptr initial_world + 1000 * 4096 < SIZE_T_MODULUS ->
             bump_ptr (world n) = bump_ptr initial_world + 1000 * 4096)))
  /\ returned (reserve_simulated 4096 late_granting_os true 4096 initial_world)
     = Some (systematic_bump_ptr_init + 2 * 4096)
  /\ List.length
       (calls (final (reserve_simulated 4096 late_granting_os true 4096
                        initial_world))) = 3%nat
  /\ bump_ptr (final (reserve_simulated 4096 late_granting_os true 4096
                        initial_world))
     = systematic_bump_ptr_init + 3 * 4096.
Proof.
  split.
  - apply (reserve_simulated_bounded_retry 4096 late_granting_os true 4096
             initial_world).
    vm_compute. split; [discriminate | reflexivity].
  - vm_compute. repeat split.
Defined.

(** C5, the claim as first stated fails: a request of 2^63 bytes that the
    system refuses 1000 times leaves the cursor where it was, not
    [1000 * 2^63] further. *)
Lemma reserve_simulated_cursor_wraps :
  returned (reserve_simulated 4096 failing_os true (2 ^ 63) initial_world)
    = Some nullptr
  /\ List.length (calls (final (reserve_simulated 4096 failing_os true (2 ^ 63)
                                  initial_world))) = 1000%nat
  /\ bump_ptr (final (reserve_simulated 4096 failing_os true (2 ^ 63) initial_world))
     = bump_ptr initial_world
  /\ bump_ptr (final (reserve_simulated 4096 failing_os true (2 ^ 63) initial_world))
     <> bump_ptr initial_world + 1000 * 2 ^ 63.
Proof.
  repeat split; try (vm_compute; reflexivity).
  vm_compute. discriminate.
Qed.

(** ** Where a failed reservation goes *)

Lemma reserve_plain_outcome ps os committed size w :
  let r := os_VirtualAlloc os w nullptr size (reserve_flags committed)
             PAGE_READWRITE in
  let msg := ("Failed to allocate memory" ++ newline)%string in
  match reserve_plain ps os committed size w with
  | Ret p w' => p = r /\ p <> nullptr /\ stdout w' = stdout w
  | Abort m w' => r = nullptr /\ m = msg /\ stdout w' = stdout w ++ [msg]
  | _ => False
  end.
Proof.
  intros r msg. unfold reserve_plain, bind.
  destruct (VirtualAlloc_inv ps os nullptr size (reserve_flags committed)
              PAGE_READWRITE w) as (w' & -> & _ & Hs & _).
  fold r. destruct (r =? nullptr) eqn:E.
  - apply Z.eqb_eq in E. unfold error. cbn. rewrite Hs. auto.
  - apply Z.eqb_neq in E. unfold ret. auto.
Qed.

Lemma reserve_extended_outcome ps os committed size align w :
  let r := os_VirtualAlloc2FromApp os w size (reserve_flags committed)
             PAGE_READWRITE
             {| LowestStartingAddress := nullptr; HighestEndingAddress := nullptr;
                Alignment := if align <? min_align then min_align else align |} in
  let msg := ("Failed to allocate memory" ++ newline)%string in
  match reserve_extended ps os committed size align w with
  | Ret p w' => p = r /\ p <> nullptr /\ stdout w' = stdout w
  | Abort m w' => r = nullptr /\ m = msg /\ stdout w' = stdout w ++ [msg]
  | _ => False
  end.
Proof.
  intros r msg. unfold reserve_extended, bind.
  destruct (VirtualAlloc2FromApp_inv ps os size (reserve_flags committed)
              PAGE_READWRITE
              {| LowestStartingAddress := nullptr; HighestEndingAddress := nullptr;
                 Alignment := if align <? min_align then min_align else align |} w)
    as (w' & -> & _ & Hs & _).
  fold r. destruct (r =? nullptr) eqn:E.
  - apply Z.eqb_eq in E. unfold error. cbn. rewrite Hs. auto.
  - apply Z.eqb_neq in E. unfold ret. auto.
Qed.

(** C4.  Of the three [reserve]s, the simulated one alone can hand a null
    pointer to its caller, and it never calls [error]: it always returns,
    prints nothing, and what it returns is the system's answer to its
    last attempt, which is null exactly when the system refused all 1000
    attempts.  The extended and the plain one either return the non-null
    pointer the system gave, or, exactly when the system gave null, end
    in [error] with the message printed; they never return null. *)
Theorem reserve_null_only_when_simulated :
  (forall s, (exists ps os committed size align w w',
                reserve_with ps os s committed size align w = Ret nullptr w')
             <-> s = Simulated)
  /\ (forall ps os committed size align w,
        let flags := reserve_flags committed in
        let world k := Nat.iter k (after_attempt ps os size flags) w in
        let answer k :=
          os_VirtualAlloc os (world k) (bump_ptr (world k)) size flags
            PAGE_READWRITE in
        exists n : nat,
          (1 <= n <= 1000)%nat
          /\ reserve_with ps os Simulated committed size align w
             = Ret (answer (n - 1)%nat) (world n)
          /\ stdout (world n) = stdout w
          /\ (answer (n - 1)%nat = nullptr
              <-> forall k, (k < 1000)%nat -> answer k = nullptr))
  /\ (forall ps os committed size align w,
        let r := os_VirtualAlloc2FromApp os w size (reserve_flags committed)
                   PAGE_READWRITE
                   {| LowestStartingAddress := nullptr;
                      HighestEndingAddress := nullptr;
                      Alignment := if align <? min_align then min_align else align |} in
        let msg := ("Failed to allocate memory" ++ newline)%string in
        match reserve_with ps os ExtendedAligned committed size align w with
        | Ret p w' => p = r /\ p <> nullptr /\ stdout w' = stdout w
        | Abort m w' => r = nullptr /\ m = msg /\ stdout w' = stdout w ++ [msg]
        | _ => False
        end)
  /\ (forall ps os committed size align w,
        let r := os_VirtualAlloc os w nullptr size (reserve_flags committed)
                   PAGE_READWRITE in
        let msg := ("Failed to allocate memory" ++ newline)%string in
        match reserve_with ps os Plain committed size align w with
        | Ret p w' => p = r /\ p <> nullptr /\ stdout w' = stdout w
        | Abort m w' => r = nullptr /\ m = msg /\ stdout w' = stdout w ++ [msg]
        | _ => False
        end).
Proof.
  split; [|split; [|split]].
  - intros s. split.
    + intros (ps & os & c & size & align & w & w' & E). destruct s; auto.
      * pose proof (reserve_extended_outcome ps os c size align w) as H.
        cbn [reserve_with] in E. cbv zeta in H. rewrite E in H.
        destruct H as (_ & H & _). contradiction.
      * pose proof (reserve_plain_outcome ps os c size w) as H.
        cbn [reserve_with] in E. cbv zeta in H. rewrite E in H.
        destruct H as (_ & H & _). contradiction.
    + intros ->. exists 4096, failing_os, true, 4096, 0, initial_world.
      eexists. vm_compute. reflexivity.
  - intros ps os c size align w flags world answer.
    cbn [reserve_with]. unfold reserve_simulated.
    destruct (reserve_loop_first_success ps os size flags 1000 1000 w)
      as (n & Hn & E & Hfail & Hlast); [lia | unfold SIZE_T_MODULUS; lia |].
    fold world in E, Hfail, Hlast. fold answer in E, Hfail, Hlast.
    exists n. split; [lia|]. split; [exact E|].
    split; [apply attempts_stdout|]. split.
    + intros Hnull k Hk.
      assert (Hn1000 : n = 1000%nat).
      { destruct (Nat.eq_dec n 1000) as [H | H]; [exact H|].
        exfalso. apply Hlast; [lia | exact Hnull]. }
      destruct (Nat.eq_dec k (n - 1)) as [-> | Hne]; [exact Hnull|].
      apply Hfail. lia.
    + intros Hall. apply Hall. lia.
  - intros ps os c size align w. apply reserve_extended_outcome.
  - intros ps os c size align w. apply reserve_plain_outcome.
Qed.

Lemma reserve_null_only_when_simulated_witness :
  exists ps os committed size align w w',
    reserve_with ps os Simulated committed size align w = Ret nullptr w'.
Proof.
  destruct reserve_null_only_when_simulated as (H & _).
  apply (H Simulated). reflexivity.
Defined.

(** ** [zero]: what the caller can observe *)

Section PageArithmetic.
Variable ps : Z.
Hypothesis ps_pos : 0 < ps.

Lemma covers_aligned p size a :
  is_aligned_block ps p size = true ->
  covers ps p size (a / ps) = true <-> p <= a < p + size.
Proof.
  unfold is_aligned_block, covers. rewrite andb_true_iff, !Z.eqb_eq.
  intros [Hp Hs].
  apply Z.div_exact in Hp; [|lia]. apply Z.div_exact in Hs; [|lia].
  set (i := p / ps) in *. set (n := size / ps) in *.
  pose proof (Z.div_mod a ps ltac:(lia)) as Ha.
  pose proof (Z.mod_pos_bound a ps ps_pos) as Hr.
  set (k := a / ps) in *. set (r := a mod ps) in *.
  destruct (Z.ltb_spec 0 size) as [Hpos | Hneg]; cbn [andb].
  - assert (Hn : 1 <= n) by nia.
    assert (Hlast : (p + size - 1) / ps = i + n - 1).
    { symmetry. apply (Z.div_unique _ _ _ (ps - 1)); [lia | nia]. }
    rewrite Hlast, andb_true_iff, !Z.leb_le. nia.
  - split; [discriminate | lia].
Qed.

Lemma range_committed_page m p size a :
  range_committed ps m p size = true ->
  p <= a < p + size -> committed m (a / ps) = true.
Proof.
  unfold range_committed, page_list. intros Hall Ha.
  destruct (Z.ltb_spec 0 size) as [Hpos | Hneg]; [|lia].
  rewrite forallb_forall in Hall. apply Hall.
  apply in_map_iff. exists (Z.to_nat (a / ps - p / ps)).
  assert (Hlo : p / ps <= a / ps) by (apply Z.div_le_mono; lia).
  assert (Hhi : a / ps <= (p + size - 1) / ps) by (apply Z.div_le_mono; lia).
  split; [lia|]. apply in_seq. lia.
Qed.

Lemma committed_prefix_le m p size : committed_prefix ps m p size <= size.
Proof.
  unfold committed_prefix.
  destruct (find _ (page_list ps p size)) as [k|] eqn:E; [|lia].
  apply find_some in E. destruct E as [Hin _]. unfold page_list in Hin.
  destruct (Z.ltb_spec 0 size) as [Hpos | Hneg]; [|contradiction].
  apply in_map_iff in Hin. destruct Hin as (i & <- & Hi). apply in_seq in Hi.
  pose proof (Z.mul_div_le (p + size - 1) ps ps_pos).
  nia.
Qed.

Lemma load_fill_inside m p size a :
  range_committed ps m p size = true -> p <= a < p + size ->
  load ps (fill p 0 size m) a = Some 0.
Proof.
  intros Hc Ha. unfold load, fill. cbn [committed bytes].
  rewrite (range_committed_page m p size a Hc Ha).
  replace ((p <=? a) && (a <? p + size)) with true; [reflexivity|].
  symmetry. apply andb_true_iff. rewrite Z.leb_le, Z.ltb_lt. lia.
Qed.

Lemma load_fill_outside m p ch size a :
  ~ (p <= a < p + size) -> load ps (fill p ch size m) a = load ps m a.
Proof.
  intros Ha. unfold load, fill. cbn [committed bytes].
  replace ((p <=? a) && (a <? p + size)) with false; [reflexivity|].
  symmetry. apply andb_false_iff. rewrite Z.leb_gt, Z.ltb_ge. lia.
Qed.

Lemma load_decommit_outside m p size a :
  is_aligned_block ps p size = true -> ~ (p <= a < p + size) ->
  load ps (decommit_pages ps p size m) a = load ps m a.
Proof.
  intros Hal Ha. unfold load, decommit_pages. cbn [committed bytes].
  destruct (covers ps p size (a / ps)) eqn:E; [|reflexivity].
  apply (covers_aligned p size a Hal) in E. contradiction.
Qed.

Lemma load_recommit_inside m p size a :
  is_aligned_block ps p size = true -> p <= a < p + size ->
  load ps (commit_pages ps p size (decommit_pages ps p size m)) a = Some 0.
Proof.
  intros Hal Ha. apply (covers_aligned p size a Hal) in Ha.
  unfold load, commit_pages, decommit_pages. cbn [committed bytes].
  rewrite Ha. reflexivity.
Qed.

Lemma load_recommit_outside m p size a :
  is_aligned_block ps p size = true -> ~ (p <= a < p + size) ->
  load ps (commit_pages ps p size (decommit_pages ps p size m)) a = load ps m a.
Proof.
  intros Hal Ha. unfold load, commit_pages, decommit_pages. cbn [committed bytes].
  destruct (covers ps p size (a / ps)) eqn:E; [|reflexivity].
  apply (covers_aligned p size a Hal) in E. contradiction.
Qed.
End PageArithmetic.

Lemma assert_true cfg w : assert_ cfg true w = Ret tt w.
Proof. unfold assert_. destruct (NDEBUG cfg); reflexivity. Qed.

(** The three ways the decommit-recommit path can end. *)
Lemma zero_decommit_path ps cfg os page_aligned p size w :
  0 < p -> is_aligned_block ps p size = true ->
  let w1 := with_memory (decommit_pages ps p size (memory w))
              (log_call (CallVirtualFree p size MEM_DECOMMIT) w) in
  match zero ps cfg os page_aligned p size w with
  | Ret _ w' =>
      os_VirtualFree os w p size MEM_DECOMMIT = true
      /\ os_VirtualAlloc os w1 p size MEM_COMMIT PAGE_READWRITE <> nullptr
      /\ memory w' = commit_pages ps p size (decommit_pages ps p size (memory w))
  | Abort _ w' =>
      (os_VirtualFree os w p size MEM_DECOMMIT = false /\ memory w' = memory w)
      \/ (os_VirtualFree os w p size MEM_DECOMMIT = true
          /\ os_VirtualAlloc os w1 p size MEM_COMMIT PAGE_READWRITE = nullptr
          /\ memory w' = decommit_pages ps p size (memory w))
  | _ => False
  end.
Proof.
  intros Hp Hal w1. unfold zero. rewrite Hal, orb_true_r.
  unfold notify_not_using, notify_using, bind. rewrite Hal. cbn [orb].
  rewrite !assert_true. unfold VirtualFree.
  destruct (os_VirtualFree os w p size MEM_DECOMMIT) eqn:Ef; cbn [andb negb].
  - change (MEM_DECOMMIT =? MEM_DECOMMIT) with true.
    cbv beta iota delta [ret negb]. fold w1.
    rewrite assert_true. unfold VirtualAlloc.
    destruct (os_VirtualAlloc os w1 p size MEM_COMMIT PAGE_READWRITE =? nullptr) eqn:Ea.
    + cbv beta iota. rewrite Ea. apply Z.eqb_eq in Ea.
      cbv beta iota delta [error]. right. auto.
    + cbv beta iota. rewrite Ea. apply Z.eqb_neq in Ea. unfold commit_if_asked.
      assert (Hpn : (p =? nullptr) = false)
        by (apply Z.eqb_neq; unfold nullptr; lia).
      rewrite Hpn. change (Z.land MEM_COMMIT MEM_COMMIT =? 0) with false.
      rewrite orb_false_r, Hpn. auto.
  - cbv beta iota delta [error negb]. left. auto.
Qed.

Lemma zero_memset_path ps cfg os p size w :
  is_aligned_block ps p size = false ->
  match zero ps cfg os false p size w with
  | Ret _ w' =>
      range_committed ps (memory w) p size = true
      /\ memory w' = fill p 0 size (memory w)
  | Fault w' =>
      range_committed ps (memory w) p size = false
      /\ memory w' = fill p 0 (committed_prefix ps (memory w) p size) (memory w)
  | _ => False
  end.
Proof.
  intros Hal. unfold zero. rewrite Hal. cbn [orb]. unfold memset.
  destruct (range_committed ps (memory w) p size); auto.
Qed.

(** C1.  For a region of positive size at a non-null base, with the hint
    given only for regions that are page-aligned, [zero] on either path
    - changes no byte and no page outside [p, p + size), however the call
      ends;
    - leaves every byte of [p, p + size) readable and zero whenever it
      returns;
    - never stops at its assertion, and returns as soon as the system
      grants the decommit and the commit (aligned region) or the region is
      committed memory ([memset]);
    - leaves memory exactly as a plain [memset] of the region would, as
      far as any load can tell. *)
Theorem zero_zeroes_exactly_the_region ps cfg os page_aligned p size w :
  0 < ps -> 0 < p -> 0 < size ->
  (page_aligned = true -> is_aligned_block ps p size = true) ->
  (forall a, ~ (p <= a < p + size) ->
     load ps (memory (final (zero ps cfg os page_aligned p size w))) a
     = load ps (memory w) a)
  /\ (forall u w', zero ps cfg os page_aligned p size w = Ret u w' ->
      forall a, p <= a < p + size -> load ps (memory w') a = Some 0)
  /\ (forall w', zero ps cfg os page_aligned p size w <> AssertFail w')
  /\ (is_aligned_block ps p size = true ->
      os_VirtualFree os w p size MEM_DECOMMIT = true ->
      os_VirtualAlloc os
        (with_memory (decommit_pages ps p size (memory w))
           (log_call (CallVirtualFree p size MEM_DECOMMIT) w))
        p size MEM_COMMIT PAGE_READWRITE <> nullptr ->
      exists w', zero ps cfg os page_aligned p size w = Ret tt w')
  /\ (is_aligned_block ps p size = false ->
      range_committed ps (memory w) p size = true ->
      exists w', zero ps cfg os page_aligned p size w = Ret tt w')
  /\ (forall u1 u2 w1 w2,
      zero ps cfg os page_aligned p size w = Ret u1 w1 ->
      memset ps p 0 size w = Ret u2 w2 ->
      forall a, load ps (memory w1) a = load ps (memory w2) a).
Proof.
  intros Hps Hp Hsize Hhint.
  destruct (is_aligned_block ps p size) eqn:Hal.
  - (* the decommit-recommit path *)
    pose proof (zero_decommit_path ps cfg os page_aligned p size w Hp Hal) as Hz.
    cbv zeta in Hz.
    destruct (zero ps cfg os page_aligned p size w) as [u w'|m w'|w'|w'|w'] eqn:E;
      try contradiction.
    + destruct Hz as (Hf & Ha & Hm). repeat split; try discriminate.
      * intros a Ha'. cbn [final]. rewrite Hm.
        apply load_recommit_outside; assumption.
      * intros u' w'' [= <- <-] a Ha'. rewrite Hm.
        apply load_recommit_inside; assumption.
      * intros _ _ _. destruct u. eauto.
      * intros u1 u2 w1 w2 [= <- <-] Hms a. unfold memset in Hms.
        destruct (range_committed ps (memory w) p size) eqn:Hrc; [|discriminate].
        injection Hms as _ <-. cbn [memory with_memory]. rewrite Hm.
        destruct (Z_le_dec p a) as [Hlo|Hlo];
          [destruct (Z_lt_dec a (p + size)) as [Hhi|Hhi]|].
        -- rewrite load_recommit_inside, load_fill_inside by (auto; lia).
           reflexivity.
        -- rewrite load_recommit_outside, load_fill_outside by (auto; lia).
           reflexivity.
        -- rewrite load_recommit_outside, load_fill_outside by (auto; lia).
           reflexivity.
    + repeat split; try discriminate.
      * intros a Ha'. cbn [final].
        destruct Hz as [(_ & ->) | (_ & _ & ->)]; [reflexivity|].
        apply load_decommit_outside; assumption.
      * intros Hf Ha. destruct Hz as [(Hf' & _) | (_ & Ha' & _)]; congruence.
  - (* the byte-fill path *)
    assert (page_aligned = false)
      by (destruct page_aligned; [discriminate (Hhint eq_refl) | reflexivity]).
    subst page_aligned.
    pose proof (zero_memset_path ps cfg os p size w Hal) as Hz.
    destruct (zero ps cfg os false p size w) as [u w'|m w'|w'|w'|w'] eqn:E;
      try contradiction.
    + destruct Hz as (Hrc & Hm). repeat split; try discriminate.
      * intros a Ha'. cbn [final]. rewrite Hm. apply load_fill_outside. exact Ha'.
      * intros u' w'' [= <- <-] a Ha'. rewrite Hm.
        apply load_fill_inside; assumption.
      * intros _. destruct u. eauto.
      * intros u1 u2 w1 w2 [= <- <-] Hms a. unfold memset in Hms.
        rewrite Hrc in Hms. injection Hms as _ <-. cbn [memory with_memory].
        rewrite Hm. reflexivity.
    + destruct Hz as (Hrc & Hm). repeat split; try discriminate.
      * intros a Ha'. cbn [final]. rewrite Hm. apply load_fill_outside.
        pose proof (committed_prefix_le ps Hps (memory w) p size). lia.
      * intros Hrc'. congruence.
Qed.

Lemma zero_zeroes_exactly_the_region_witness :
  (load 4096 (memory (final (zero 4096 debug_build granting_os true 0x10000 4096
                               dirty_world))) 0x10005 = Some 0
   /\ load 4096 (memory (final (zero 4096 debug_build granting_os true 0x10000 4096
                                  dirty_world))) 0x11005
      = load 4096 (memory dirty_world) 0x11005)
  /\ (load 4096 (memory (final (zero 4096 debug_build granting_os false 0x10001 16
                                  dirty_world))) 0x10010 = Some 0
      /\ load 4096 (memory (final (zero 4096 debug_build granting_os false 0x10001 16
                                     dirty_world))) 0x10011
         = load 4096 (memory dirty_world) 0x10011).
Proof.
  split.
  - destruct (zero_zeroes_exactly_the_region 4096 debug_build granting_os true
                0x10000 4096 dirty_world ltac:(lia) ltac:(lia) ltac:(lia)
                (fun _ => eq_refl))
      as (Hout & Hin & _).
    split.
    + apply (Hin tt _ eq_refl). lia.
    + apply Hout. lia.
  - destruct (zero_zeroes_exactly_the_region 4096 debug_build granting_os false
                0x10001 16 dirty_world ltac:(lia) ltac:(lia) ltac:(lia)
                (fun H => False_ind _ (Bool.diff_false_true H)))
      as (Hout & Hin & _).
    split.
    + apply (Hin tt _ eq_refl). lia.
    + apply Hout. lia.
Defined.

(** ** The one-time subscription *)

Lemma PALWindows_ctor_registered os w :
  registered_for_notifications w = true ->
  PALWindows_ctor os w = Ret tt (with_registered true w).
Proof. intros H. unfold PALWindows_ctor, bind, exchange. rewrite H. reflexivity. Qed.

Lemma PALWindows_ctor_unregistered os w :
  registered_for_notifications w = false ->
  let w1 := with_registered true w in
  let h := os_CreateMemoryResourceNotification os w1 LowMemoryResourceNotification in
  PALWindows_ctor os w =
  Ret tt
    (log_call (CallRegisterWaitForSingleObject h INFINITE WT_EXECUTEDEFAULT)
       (with_lowMemoryObject h
          (log_call (CallCreateMemoryResourceNotification
                       LowMemoryResourceNotification) w1))).
Proof. intros H. unfold PALWindows_ctor, bind, exchange. rewrite H. reflexivity. Qed.

(** The constructor is its three steps taken without interruption. *)
Lemma PALWindows_ctor_steps os w :
  PALWindows_ctor os w =
  (pc1 <- ctor_step os AtExchange ;;
   pc2 <- ctor_step os pc1 ;;
   pc3 <- ctor_step os pc2 ;;
   ret tt) w.
Proof.
  unfold PALWindows_ctor, ctor_step, bind, exchange.
  destruct (registered_for_notifications w); reflexivity.
Qed.

Lemma sys_inv_init w :
  registered_for_notifications w = false -> sys_inv (sys_init w).
Proof. intros H. unfold sys_inv, sys_init. cbn. auto. Qed.

Lemma skipn_length_self {A} (l : list A) : skipn (List.length l) l = [].
Proof. induction l; simpl; auto. Qed.

Lemma sys_inv_step os s i : sys_inv s -> sys_inv (sys_step os s i).
Proof.
  unfold sys_inv. destruct s as [w th lg fl]. cbn [sys_flips sys_world sys_threads sys_log].
  destruct fl as [|f [|f' fl]]; [| |contradiction].
  - (* nobody has flipped yet: thread [i] does *)
    intros (Hreg & Hall & Hlog). unfold sys_step.
    cbn [sys_flips sys_world sys_threads sys_log]. rewrite (Hall i).
    unfold ctor_step, bind, exchange, ret. rewrite Hreg.
    cbn [negb sys_flips sys_world sys_threads sys_log app with_registered
         registered_for_notifications calls].
    rewrite skipn_length_self, Hlog. cbn [map app].
    split; [reflexivity|]. split.
    + intros j Hj. apply Nat.eqb_neq in Hj. rewrite Hj. left. apply Hall.
    + left. rewrite Nat.eqb_refl. auto.
  - intros (Hreg & Hothers & Hphase). unfold sys_step.
    cbn [sys_flips sys_world sys_threads sys_log].
    destruct (Nat.eq_dec i f) as [-> | Hne].
    + (* the flipping thread moves *)
      destruct Hphase as [(Hpc & Hlog) | [(Hpc & Hlog) | (Hpc & Hlog)]];
        rewrite Hpc; unfold ctor_step, bind, ret, CreateMemoryResourceNotification,
          RegisterWaitForSingleObject;
        cbn [sys_flips sys_world sys_threads sys_log with_lowMemoryObject log_call
             registered_for_notifications calls lowMemoryObject];
        rewrite ?skipn_length_app, ?skipn_length_self, Hlog; cbn [map app];
        (split; [exact Hreg|]);
        (split; [intros j Hj; pose proof Hj as Hj'; apply Nat.eqb_neq in Hj';
                 rewrite Hj'; apply Hothers; exact Hj|]);
        rewrite Nat.eqb_refl; auto.
    + (* another thread moves: it finds the flag set *)
      assert (Hfi : Nat.eqb f i = false) by (apply Nat.eqb_neq; auto).
      destruct (Hothers i Hne) as [Hpc | Hpc]; rewrite Hpc;
        unfold ctor_step, bind, exchange, ret; rewrite ?Hreg;
        cbn [negb sys_flips sys_world sys_threads sys_log with_registered
             registered_for_notifications calls lowMemoryObject];
        rewrite skipn_length_self; cbn [map]; rewrite app_nil_r;
        (split; [auto|]);
        (split; [intros j Hj; destruct (Nat.eqb j i); auto|]);
        rewrite Hfi; exact Hphase.
Qed.

Lemma sys_inv_run os sched : forall s, sys_inv s -> sys_inv (run_schedule os sched s).
Proof.
  induction sched as [|i sched IH]; intros s Hs; [exact Hs|].
  cbn [run_schedule fold_left]. apply IH. apply sys_inv_step. exact Hs.
Qed.

Lemma ctor_step_calls os pc w :
  exists pc' w' new,
    ctor_step os pc w = Ret pc' w' /\ calls w' = calls w ++ new.
Proof.
  destruct pc; cbn; unfold bind, exchange, CreateMemoryResourceNotification,
    RegisterWaitForSingleObject, ret; cbn;
    do 3 eexists; (split; [reflexivity|]); cbn;
    first [ reflexivity | symmetry; apply app_nil_r ].
Qed.

Lemma sys_log_step os base s i :
  calls (sys_world s) = base ++ map snd (sys_log s) ->
  calls (sys_world (sys_step os s i)) = base ++ map snd (sys_log (sys_step os s i)).
Proof.
  intros H. unfold sys_step.
  destruct (ctor_step_calls os (sys_threads s i) (sys_world s))
    as (pc' & w' & new & -> & Hc).
  cbn [sys_world sys_log]. rewrite Hc, skipn_length_app, map_app, map_map.
  cbn [snd]. rewrite map_id, H, app_assoc. reflexivity.
Qed.

Lemma sys_log_run os base sched :
  forall s,
    calls (sys_world s) = base ++ map snd (sys_log s) ->
    calls (sys_world (run_schedule os sched s))
    = base ++ map snd (sys_log (run_schedule os sched s)).
Proof.
  induction sched as [|i sched IH]; intros s Hs; [exact Hs|].
  cbn [run_schedule fold_left]. apply IH. apply sys_log_step. exact Hs.
Qed.

(** C2.  Start with the flag clear and let any number of threads
    construct [PALWindows] objects under any schedule.  At every moment
    - at most one thread has seen [false] from the exchange, and every
      call in the log was made by that thread;
    - the log holds at most one [CreateMemoryResourceNotification] and at
      most one [RegisterWaitForSingleObject], and it is exactly what the
      run added to the calls of the process;
    - once some constructor has finished and none is under way, the log
      holds exactly one of each.
    Run alone, a constructor that finds the flag set makes no call, and
    one that finds it clear makes exactly the two subscription calls. *)
Theorem subscription_exactly_once os w sched :
  registered_for_notifications w = false ->
  let s := run_schedule os sched (sys_init w) in
  (List.length (sys_flips s) <= 1)%nat
  /\ (forall i c, In (i, c) (sys_log s) -> sys_flips s = [i])
  /\ (count is_create (map snd (sys_log s)) <= 1)%nat
  /\ (count is_register (map snd (sys_log s)) <= 1)%nat
  /\ calls (sys_world s) = calls w ++ map snd (sys_log s)
  /\ ((exists i, sys_threads s i = Constructed) ->
      (forall i, sys_threads s i = AtExchange \/ sys_threads s i = Constructed) ->
      count is_create (map snd (sys_log s)) = 1%nat
      /\ count is_register (map snd (sys_log s)) = 1%nat
      /\ count is_subscription (calls (sys_world s))
         = (count is_subscription (calls w) + 2)%nat)
  /\ (forall w1, registered_for_notifications w1 = true ->
      exists w2, PALWindows_ctor os w1 = Ret tt w2 /\ calls w2 = calls w1)
  /\ (exists h w2,
      PALWindows_ctor os w = Ret tt w2
      /\ calls w2 = calls w ++
           [CallCreateMemoryResourceNotification LowMemoryResourceNotification;
            CallRegisterWaitForSingleObject h INFINITE WT_EXECUTEDEFAULT]).
Proof.
  intros Hreg s.
  pose proof (sys_inv_run os sched (sys_init w) (sys_inv_init w Hreg)) as Hinv.
  assert (Hcalls : calls (sys_world s) = calls w ++ map snd (sys_log s))
    by (apply sys_log_run; cbn; symmetry; apply app_nil_r).
  fold s in Hinv. unfold sys_inv in Hinv.
  split; [|split; [|split; [|split; [|split; [exact Hcalls|split; [|split]]]]]].
  - destruct (sys_flips s) as [|f [|f' fl]]; [cbn; lia | cbn; lia | contradiction].
  - intros i c Hin. destruct (sys_flips s) as [|f [|f' fl]]; [| |contradiction].
    + destruct Hinv as (_ & _ & Hlog). rewrite Hlog in Hin. contradiction.
    + destruct Hinv as (_ & _ & [(_ & Hlog) | [(_ & Hlog) | (_ & Hlog)]]);
        rewrite Hlog in Hin; cbn in Hin; intuition congruence.
  - destruct (sys_flips s) as [|f [|f' fl]]; [| |contradiction].
    + destruct Hinv as (_ & _ & ->). cbn. lia.
    + destruct Hinv as (_ & _ & [(_ & ->) | [(_ & ->) | (_ & ->)]]); cbn; lia.
  - destruct (sys_flips s) as [|f [|f' fl]]; [| |contradiction].
    + destruct Hinv as (_ & _ & ->). cbn. lia.
    + destruct Hinv as (_ & _ & [(_ & ->) | [(_ & ->) | (_ & ->)]]); cbn; lia.
  - intros (i & Hi) Hquiet. rewrite Hcalls, count_app.
    destruct (sys_flips s) as [|f [|f' fl]]; [| |contradiction].
    + destruct Hinv as (_ & Hall & _). rewrite Hall in Hi. discriminate.
    + destruct Hinv as (_ & _ & [(Hpc & _) | [(Hpc & _) | (_ & ->)]]).
      * destruct (Hquiet f); congruence.
      * destruct (Hquiet f); congruence.
      * cbn. auto.
  - intros w1 H1. rewrite (PALWindows_ctor_registered os w1 H1). eauto.
  - rewrite (PALWindows_ctor_unregistered os w Hreg). do 2 eexists.
    split; [reflexivity|]. cbn. rewrite <- app_assoc. reflexivity.
Qed.

Lemma subscription_exactly_once_witness :
  let s := run_schedule failing_os [0; 1; 2; 0; 1; 0; 3; 2; 0]%nat
             (sys_init initial_world) in
  sys_flips s = [0%nat]
  /\ count is_create (map snd (sys_log s)) = 1%nat
  /\ count is_register (map snd (sys_log s)) = 1%nat.
Proof.
  destruct (subscription_exactly_once failing_os initial_world
              [0; 1; 2; 0; 1; 0; 3; 2; 0]%nat eq_refl)
    as (_ & Hby & _ & _ & _ & Hdone & _).
  cbv zeta. split; [apply (Hby 0%nat
    (CallCreateMemoryResourceNotification LowMemoryResourceNotification));
    vm_compute; auto|].
  assert (Hquiet : forall i,
    sys_threads (run_schedule failing_os [0; 1; 2; 0; 1; 0; 3; 2; 0]%nat
                   (sys_init initial_world)) i = AtExchange
    \/ sys_threads (run_schedule failing_os [0; 1; 2; 0; 1; 0; 3; 2; 0]%nat
                      (sys_init initial_world)) i = Constructed).
  { intros [|[|[|[|i]]]]; vm_compute; auto. }
  destruct (Hdone (ex_intro _ 0%nat eq_refl) Hquiet) as (Hc & Hr & _).
  split; assumption.
Defined.

(** ** The registration state is never touched again *)

Lemma steady_refl w : steady w w.
Proof. unfold steady. auto. Qed.

Lemma steady_trans w1 w2 w3 : steady w1 w2 -> steady w2 w3 -> steady w1 w3.
Proof. unfold steady. intros (A & B & C) (D & E & F). repeat split; congruence. Qed.

Lemma steady_log c w : is_subscription c = false -> steady w (log_call c w).
Proof.
  intros H. unfold steady.
  cbn [log_call calls registered_for_notifications lowMemoryObject].
  repeat split. rewrite count_app. unfold count at 2. cbn [filter].
  rewrite H. cbn. lia.
Qed.

Lemma steady_log_memory c m w :
  is_subscription c = false -> steady w (with_memory m (log_call c w)).
Proof. intros H. exact (steady_log c w H). Qed.

Lemma steady_commit_if_asked ps flags base size w :
  steady w (commit_if_asked ps flags base size w).
Proof. unfold commit_if_asked. destruct (_ || _); unfold steady; cbn; auto. Qed.

Lemma keeps_ret {A} (a : A) : keeps (ret a).
Proof. intros w. apply steady_refl. Qed.

Lemma keeps_bind {A B} (m : PAL A) (k : A -> PAL B) :
  keeps m -> (forall a, keeps (k a)) -> keeps (bind m k).
Proof.
  intros Hm Hk w. unfold bind. specialize (Hm w).
  destruct (m w) as [a w'| | | |]; try exact Hm.
  cbn [final] in Hm. eapply steady_trans; [exact Hm | apply Hk].
Qed.

Lemma keeps_read {A B} (g : World -> B) (f : B -> PAL A) :
  (forall x, keeps (f x)) -> keeps (fun w => f (g w) w).
Proof. intros H w. apply H. Qed.

Lemma keeps_update {A} (a : A) (f : World -> World) :
  (forall w, steady w (f w)) -> keeps (fun w => Ret a (f w)).
Proof. intros H w. apply H. Qed.

Lemma keeps_error {A} str : keeps (@error A str).
Proof. intros w. unfold steady. cbn. auto. Qed.

Lemma keeps_assert cfg c : keeps (assert_ cfg c).
Proof. intros w. unfold assert_. destruct (NDEBUG cfg), c; apply steady_refl. Qed.

Lemma keeps_VirtualFree ps os p size ty : keeps (VirtualFree ps os p size ty).
Proof.
  intros w. unfold VirtualFree.
  destruct (_ && _); cbn [final];
    [apply steady_log_memory; reflexivity | apply steady_log; reflexivity].
Qed.

Lemma keeps_VirtualAlloc ps os p size flags protect :
  keeps (VirtualAlloc ps os p size flags protect).
Proof.
  intros w. unfold VirtualAlloc. destruct (_ =? nullptr); cbn [final].
  - apply steady_log. reflexivity.
  - eapply steady_trans; [|apply steady_commit_if_asked].
    apply steady_log. reflexivity.
Qed.

Lemma keeps_VirtualAlloc2FromApp ps os size flags protect req :
  keeps (VirtualAlloc2FromApp ps os size flags protect req).
Proof.
  intros w. unfold VirtualAlloc2FromApp. cbn [final].
  eapply steady_trans; [|apply steady_commit_if_asked].
  apply steady_log. reflexivity.
Qed.

Lemma keeps_memset ps p ch size : keeps (memset ps p ch size).
Proof.
  intros w. unfold memset.
  destruct (range_committed _ _ _ _); cbn [final];
    [apply steady_log_memory; reflexivity | apply steady_log; reflexivity].
Qed.

Lemma keeps_Query os h : keeps (QueryMemoryResourceNotification os h).
Proof. intros w. apply steady_log. reflexivity. Qed.

Create HintDb keeps.
#[local] Hint Resolve keeps_ret keeps_error keeps_assert keeps_VirtualFree
  keeps_VirtualAlloc keeps_VirtualAlloc2FromApp keeps_memset keeps_Query : keeps.

Ltac keeps_step :=
  first [ apply keeps_bind; [|intro]
        | match goal with |- keeps (if ?c then _ else _) => destruct c end
        | solve [auto with keeps] ].

Lemma keeps_notify_not_using ps cfg os p size :
  keeps (notify_not_using ps cfg os p size).
Proof. unfold notify_not_using. repeat keeps_step. Qed.

Lemma keeps_notify_using ps cfg os z p size :
  keeps (notify_using ps cfg os z p size).
Proof. unfold notify_using. repeat keeps_step. Qed.

#[local] Hint Resolve keeps_notify_not_using keeps_notify_using : keeps.

Lemma keeps_zero ps cfg os a p size : keeps (zero ps cfg os a p size).
Proof. unfold zero. repeat keeps_step. Qed.

Lemma keeps_expensive_low_memory_check os : keeps (expensive_low_memory_check os).
Proof.
  unfold expensive_low_memory_check.
  apply (keeps_read (fun w => (os_indeterminate os w, lowMemoryObject w))
           (fun x => r <- QueryMemoryResourceNotification os (snd x) ;;
                     ret (negb (match snd r with Some v => v | None => fst x end =? 0)))).
  intros x. repeat keeps_step.
Qed.

Lemma keeps_register_for_low_memory_callback c :
  keeps (register_for_low_memory_callback c).
Proof. intros w. unfold steady. cbn. auto. Qed.

Lemma keeps_reserve_loop ps os size flags :
  forall fuel retries, keeps (reserve_loop ps os fuel size flags retries).
Proof.
  induction fuel as [|fuel IH]; intros retries; cbn [reserve_loop];
    apply (keeps_read bump_ptr
             (fun b => p <- VirtualAlloc ps os b size flags PAGE_READWRITE ;; _));
    intros b; apply keeps_bind; auto with keeps; intros p;
    (apply keeps_bind; [intros w; unfold steady; cbn; auto|intros _]);
    destruct (_ && _); auto with keeps.
  intros w. apply steady_refl.
Qed.

Lemma keeps_reserve ps cfg os committed size align :
  keeps (reserve ps cfg os committed size align).
Proof.
  unfold reserve, reserve_with.
  destruct (strategy cfg);
    unfold reserve_simulated, reserve_extended, reserve_plain;
    first [ apply keeps_reserve_loop | repeat keeps_step ].
Qed.

Lemma steady_run_op ps cfg os o w :
  registered_for_notifications w = true ->
  steady w (final (run_op ps cfg os o w)).
Proof.
  intros Hreg. destruct o; cbn [run_op].
  - rewrite (PALWindows_ctor_registered os w Hreg). unfold steady. cbn. auto.
  - apply keeps_bind; [apply keeps_expensive_low_memory_check | intro; apply keeps_ret].
  - apply keeps_register_for_low_memory_callback.
  - apply keeps_notify_not_using.
  - apply keeps_notify_using.
  - apply keeps_zero.
  - apply keeps_bind; [apply keeps_reserve | intro; apply keeps_ret].
Qed.

Lemma steady_run_ops ps cfg os ops :
  forall w, registered_for_notifications w = true ->
            steady w (final (run_ops ps cfg os ops w)).
Proof.
  induction ops as [|o ops IH]; intros w Hreg; cbn [run_ops].
  - apply steady_refl.
  - pose proof (steady_run_op ps cfg os o w Hreg) as Ho. unfold bind.
    destruct (run_op ps cfg os o w) as [u w'| | | |]; try exact Ho.
    cbn [final] in Ho. eapply steady_trans; [exact Ho|]. apply IH.
    destruct Ho as (-> & _). exact Hreg.
Qed.

(** C9.  The exchange sets the flag in a step of its own that makes no
    call, and only a thread that saw [false] goes on to the subscription
    calls; so in every interleaved run the flag is set by the time a
    thread stands before one of those calls or has made one.  Once the
    flag is set, no sequence of member functions clears it, changes the
    stored handle or makes another subscription call.  A first
    construction stores whatever handle the system returned, null
    included, and sets the flag all the same: a failed subscription is
    never tried again. *)
Theorem registration_attempt_is_permanent :
  (forall os w, exists pc w',
      ctor_step os AtExchange w = Ret pc w'
      /\ registered_for_notifications w' = true
      /\ calls w' = calls w
      /\ (pc = AtCreate <-> registered_for_notifications w = false))
  /\ (forall os w sched,
      registered_for_notifications w = false ->
      let s := run_schedule os sched (sys_init w) in
      (exists i, sys_threads s i = AtCreate \/ sys_threads s i = AtRegister)
      \/ sys_log s <> [] ->
      registered_for_notifications (sys_world s) = true)
  /\ (forall ps cfg os ops w,
      registered_for_notifications w = true ->
      let w' := final (run_ops ps cfg os ops w) in
      registered_for_notifications w' = true
      /\ lowMemoryObject w' = lowMemoryObject w
      /\ count is_subscription (calls w') = count is_subscription (calls w))
  /\ (forall os w,
      registered_for_notifications w = false ->
      exists w',
        PALWindows_ctor os w = Ret tt w'
        /\ registered_for_notifications w' = true
        /\ lowMemoryObject w'
           = os_CreateMemoryResourceNotification os (with_registered true w)
               LowMemoryResourceNotification).
Proof.
  split; [|split; [|split]].
  - intros os w. unfold ctor_step, bind, exchange, ret. do 2 eexists.
    split; [reflexivity|]. cbn. repeat split.
    + destruct (registered_for_notifications w); [discriminate | reflexivity].
    + intros ->. reflexivity.
  - intros os w sched Hreg s Hbusy.
    pose proof (sys_inv_run os sched (sys_init w) (sys_inv_init w Hreg)) as Hinv.
    fold s in Hinv. unfold sys_inv in Hinv.
    destruct (sys_flips s) as [|f [|f' fl]]; [| |contradiction].
    + destruct Hinv as (_ & Hall & Hlog).
      destruct Hbusy as [(i & [Hi | Hi]) | Hne];
        [rewrite Hall in Hi; discriminate | rewrite Hall in Hi; discriminate
        | contradiction].
    + destruct Hinv as (H & _). exact H.
  - intros ps cfg os ops w Hreg w'.
    destruct (steady_run_ops ps cfg os ops w Hreg) as (H1 & H2 & H3).
    fold w' in H1, H2, H3. rewrite H1. auto.
  - intros os w Hreg. rewrite (PALWindows_ctor_unregistered os w Hreg).
    eexists. split; [reflexivity|]. cbn. auto.
Qed.

Lemma registration_attempt_is_permanent_witness :
  let w1 := final (PALWindows_ctor failing_os initial_world) in
  let w2 := final (run_ops 4096 release_build failing_os
                     [OpConstruct; OpExpensiveLowMemoryCheck; OpConstruct] w1) in
  lowMemoryObject w1 = nullptr
  /\ registered_for_notifications w2 = true
  /\ lowMemoryObject w2 = nullptr
  /\ count is_subscription (calls w2) = 2%nat.
Proof.
  destruct registration_attempt_is_permanent as (_ & _ & Hkeep & _).
  cbv zeta.
  destruct (Hkeep 4096 release_build failing_os
              [OpConstruct; OpExpensiveLowMemoryCheck; OpConstruct]
              (final (PALWindows_ctor failing_os initial_world)) eq_refl)
    as (H1 & H2 & H3).
  split; [reflexivity|]. split; [exact H1|]. split; [exact H2|]. exact H3.
Defined.

(** * Further properties of the member functions *)

(** ** The commit controller: one call, and how it ends *)

Lemma assert_passes cfg c w :
  NDEBUG cfg = true \/ c = true -> assert_ cfg c w = Ret tt w.
Proof.
  intros [H | H]; unfold assert_; rewrite H; [|destruct (NDEBUG cfg)]; reflexivity.
Qed.

(** X1.  When its assertion lets the call through, [notify_not_using]
    makes exactly one system call, [VirtualFree(p, size, MEM_DECOMMIT)].
    It returns, silently, exactly when the system reports success, and
    then, for a region of positive size, with the pages of the region
    decommitted; otherwise it prints "VirtualFree failed" and dies, with
    memory as it was. *)
Theorem notify_not_using_outcome ps cfg os p size w :
  NDEBUG cfg = true \/ is_aligned_block ps p size = true ->
  match notify_not_using ps cfg os p size w with
  | Ret _ w' =>
      os_VirtualFree os w p size MEM_DECOMMIT = true
      /\ calls w' = calls w ++ [CallVirtualFree p size MEM_DECOMMIT]
      /\ stdout w' = stdout w
      /\ (0 < size -> memory w' = decommit_pages ps p size (memory w))
  | Abort msg w' =>
      os_VirtualFree os w p size MEM_DECOMMIT = false
      /\ msg = "VirtualFree failed"%string
      /\ calls w' = calls w ++ [CallVirtualFree p size MEM_DECOMMIT]
      /\ stdout w' = stdout w ++ [msg]
      /\ memory w' = memory w
  | _ => False
  end.
Proof.
  intros H. unfold notify_not_using, bind. rewrite (assert_passes cfg _ w H).
  unfold VirtualFree.
  destruct (os_VirtualFree os w p size MEM_DECOMMIT); cbn [andb].
  - change (MEM_DECOMMIT =? MEM_DECOMMIT) with true. cbn. auto.
  - cbn. auto.
Qed.

Lemma notify_not_using_outcome_witness :
  match notify_not_using 4096 debug_build failing_os 0x10000 4096 dirty_world with
  | Abort msg w' =>
      msg = "VirtualFree failed"%string
      /\ stdout w' = ["VirtualFree failed"%string]
      /\ memory w' = memory dirty_world
  | _ => False
  end.
Proof.
  pose proof (notify_not_using_outcome 4096 debug_build failing_os 0x10000 4096
                dirty_world (or_intror eq_refl)) as H.
  destruct (notify_not_using 4096 debug_build failing_os 0x10000 4096 dirty_world);
    try exact H.
  - destruct H as (H & _). discriminate H.
  - destruct H as (_ & Hm & _ & Hs & Hmem). subst msg. auto.
Defined.

(** X2.  When its assertion lets the call through, [notify_using] makes
    exactly one system call, [VirtualAlloc(p, size, MEM_COMMIT,
    PAGE_READWRITE)].  It returns silently exactly when the system gives
    a non-null pointer; on null it prints "out of memory" and dies, with
    memory as it was. *)
Theorem notify_using_outcome ps cfg os zero_mem p size w :
  NDEBUG cfg = true
  \/ is_aligned_block ps p size || ZeroMem_eqb zero_mem NoZero = true ->
  let r := os_VirtualAlloc os w p size MEM_COMMIT PAGE_READWRITE in
  match notify_using ps cfg os zero_mem p size w with
  | Ret _ w' =>
      r <> nullptr
      /\ calls w' = calls w ++ [CallVirtualAlloc p size MEM_COMMIT PAGE_READWRITE]
      /\ stdout w' = stdout w
  | Abort msg w' =>
      r = nullptr
      /\ msg = "out of memory"%string
      /\ calls w' = calls w ++ [CallVirtualAlloc p size MEM_COMMIT PAGE_READWRITE]
      /\ stdout w' = stdout w ++ [msg]
      /\ memory w' = memory w
  | _ => False
  end.
Proof.
  intros H r. unfold notify_using, bind. rewrite (assert_passes cfg _ w H).
  destruct (VirtualAlloc_inv ps os p size MEM_COMMIT PAGE_READWRITE w)
    as (w1 & E & Hc & Hs & _).
  pose proof E as E'. unfold VirtualAlloc in E'. rewrite E. fold r in E' |- *.
  destruct (r =? nullptr) eqn:Er.
  - apply Z.eqb_eq in Er. injection E' as <-. cbn. auto.
  - apply Z.eqb_neq in Er. unfold ret. auto.
Qed.

Lemma notify_using_outcome_witness :
  match notify_using 4096 debug_build failing_os NoZero 0x10001 16 dirty_world with
  | Abort msg w' =>
      msg = "out of memory"%string /\ stdout w' = ["out of memory"%string]
  | _ => False
  end.
Proof.
  pose proof (notify_using_outcome 4096 debug_build failing_os NoZero 0x10001 16
                dirty_world (or_intror eq_refl)) as H.
  cbv zeta in H.
  destruct (notify_using 4096 debug_build failing_os NoZero 0x10001 16 dirty_world);
    try exact H.
  - destruct H as (H & _). exfalso. apply H. reflexivity.
  - destruct H as (_ & Hm & _ & Hs & _). subst msg. auto.
Defined.

(** ** [zero]: failures, the empty region, and the hint taken on trust *)

(** The decommit-recommit branch of [zero], written out. *)
Lemma zero_decommit_branch ps cfg os page_aligned p size w :
  page_aligned || is_aligned_block ps p size = true ->
  NDEBUG cfg = true \/ is_aligned_block ps p size = true ->
  let free := CallVirtualFree p size MEM_DECOMMIT in
  let alloc := CallVirtualAlloc p size MEM_COMMIT PAGE_READWRITE in
  let w1 := with_memory (decommit_pages ps p size (memory w)) (log_call free w) in
  let r := os_VirtualAlloc os w1 p size MEM_COMMIT PAGE_READWRITE in
  zero ps cfg os page_aligned p size w =
  if os_VirtualFree os w p size MEM_DECOMMIT then
    if r =? nullptr
    then Abort "out of memory" (print "out of memory" (log_call alloc w1))
    else Ret tt (commit_if_asked ps MEM_COMMIT (if p =? nullptr then r else p) size
                   (log_call alloc w1))
  else Abort "VirtualFree failed" (print "VirtualFree failed" (log_call free w)).
Proof.
  intros Hpath Hassert free alloc w1 r. unfold zero. rewrite Hpath.
  unfold notify_not_using, notify_using, bind.
  rewrite !(assert_passes cfg _ w Hassert). unfold VirtualFree.
  destruct (os_VirtualFree os w p size MEM_DECOMMIT); cbn [andb].
  - change (MEM_DECOMMIT =? MEM_DECOMMIT) with true.
    cbv beta iota delta [ret negb]. fold free. fold w1.
    rewrite (assert_passes cfg _ w1)
      by (destruct Hassert as [H | H]; [left; exact H | right; rewrite H; reflexivity]).
    unfold VirtualAlloc. fold alloc. fold r.
    destruct (r =? nullptr) eqn:Er; cbv beta iota; rewrite Er; reflexivity.
  - reflexivity.
Qed.

Lemma load_decommit_inside ps m p size a :
  0 < ps -> is_aligned_block ps p size = true -> p <= a < p + size ->
  load ps (decommit_pages ps p size m) a = None.
Proof.
  intros Hps Hal Ha. apply (covers_aligned ps Hps p size a Hal) in Ha.
  unfold load, decommit_pages. cbn [committed bytes]. rewrite Ha. reflexivity.
Qed.

(** X3.  How [zero] fails on a page-aligned region.  If the system
    refuses the decommit, [zero] dies with "VirtualFree failed" after
    that one call, the commit is never asked for, and memory is
    untouched.  If the region has positive size and the system grants
    the decommit and refuses the commit, [zero] dies with "out of memory"
    after the two calls, and the region is left decommitted: no byte of
    it can be read, while every byte outside it is as before. *)
Theorem zero_failure_modes ps cfg os page_aligned p size w :
  0 < ps -> is_aligned_block ps p size = true ->
  let free := CallVirtualFree p size MEM_DECOMMIT in
  let alloc := CallVirtualAlloc p size MEM_COMMIT PAGE_READWRITE in
  let w1 := with_memory (decommit_pages ps p size (memory w)) (log_call free w) in
  (os_VirtualFree os w p size MEM_DECOMMIT = false ->
   exists w',
     zero ps cfg os page_aligned p size w = Abort "VirtualFree failed" w'
     /\ calls w' = calls w ++ [free]
     /\ stdout w' = stdout w ++ ["VirtualFree failed"%string]
     /\ memory w' = memory w)
  /\ (0 < size ->
      os_VirtualFree os w p size MEM_DECOMMIT = true ->
      os_VirtualAlloc os w1 p size MEM_COMMIT PAGE_READWRITE = nullptr ->
      exists w',
        zero ps cfg os page_aligned p size w = Abort "out of memory" w'
        /\ calls w' = calls w ++ [free; alloc]
        /\ stdout w' = stdout w ++ ["out of memory"%string]
        /\ (forall a, p <= a < p + size -> load ps (memory w') a = None)
        /\ (forall a, ~ (p <= a < p + size) ->
            load ps (memory w') a = load ps (memory w) a)).
Proof.
  intros Hps Hal free alloc w1.
  pose proof (zero_decommit_branch ps cfg os page_aligned p size w
                ltac:(rewrite Hal; apply orb_true_r) (or_intror Hal)) as E.
  cbv zeta in E. fold free alloc w1 in E. split.
  - intros Hf. rewrite Hf in E. eexists. split; [exact E|]. cbn. auto.
  - intros _ Hf Ha. rewrite Hf, Ha in E. cbn [Z.eqb nullptr] in E.
    eexists. split; [exact E|]. cbn [calls stdout memory print log_call with_memory w1].
    split; [rewrite <- app_assoc; reflexivity|]. split; [reflexivity|]. split.
    + intros a Hin. apply load_decommit_inside; assumption.
    + intros a Hout. apply load_decommit_outside; assumption.
Qed.

Lemma zero_failure_modes_witness :
  exists w',
    zero 4096 debug_build failing_os false 0x10000 4096 dirty_world
      = Abort "VirtualFree failed" w'
    /\ calls w' = [CallVirtualFree 0x10000 4096 MEM_DECOMMIT]
    /\ memory w' = memory dirty_world.
Proof.
  destruct (zero_failure_modes 4096 debug_build failing_os false 0x10000 4096
              dirty_world ltac:(lia) eq_refl) as (H & _).
  destruct (H eq_refl) as (w' & E & Hc & _ & Hm).
  exists w'. auto.
Defined.

(** X4.  The empty region.  A size of 0 counts as a multiple of the page
    size, so [zero(p, 0)] without the hint goes by the base address
    alone: at a page-aligned base it takes the decommit path and its
    first call is a [VirtualFree] of size 0; at any other base it is a
    [memset] of 0 bytes, which always returns and changes no byte. *)
Theorem zero_empty_region ps cfg os p w :
  (p mod ps = 0 ->
   exists rest,
     calls (final (zero ps cfg os false p 0 w))
     = calls w ++ CallVirtualFree p 0 MEM_DECOMMIT :: rest
     /\ count is_memset rest = 0%nat)
  /\ (p mod ps <> 0 ->
      exists w',
        zero ps cfg os false p 0 w = Ret tt w'
        /\ calls w' = calls w ++ [CallMemset p 0 0]
        /\ forall a, load ps (memory w') a = load ps (memory w) a).
Proof.
  assert (Hal : is_aligned_block ps p 0 = (p mod ps =? 0))
    by (unfold is_aligned_block; rewrite Zmod_0_l; apply andb_true_r).
  split; intros Hp.
  - assert (Hal' : is_aligned_block ps p 0 = true)
      by (rewrite Hal; apply Z.eqb_eq; exact Hp).
    exists (if os_VirtualFree os w p 0 MEM_DECOMMIT
            then [CallVirtualAlloc p 0 MEM_COMMIT PAGE_READWRITE] else []).
    split.
    + pose proof (zero_decommit_path_calls ps cfg os p 0 w (or_intror Hal')) as H.
      unfold zero. destruct (is_aligned_block ps p 0); [exact H | discriminate].
    + destruct (os_VirtualFree os w p 0 MEM_DECOMMIT); reflexivity.
  - assert (Hal' : is_aligned_block ps p 0 = false)
      by (rewrite Hal; apply Z.eqb_neq; exact Hp).
    unfold zero. rewrite Hal'. cbn [orb]. unfold memset, range_committed, page_list.
    cbn [Z.ltb Z.compare forallb]. eexists. split; [reflexivity|].
    split; [reflexivity|]. intros a. apply load_fill_outside. lia.
Qed.

Lemma zero_empty_region_witness :
  (exists rest,
     calls (final (zero 4096 release_build granting_os false 0x10000 0 dirty_world))
     = calls dirty_world ++ CallVirtualFree 0x10000 0 MEM_DECOMMIT :: rest
     /\ count is_memset rest = 0%nat)
  /\ (exists w',
        zero 4096 release_build granting_os false 0x10001 0 dirty_world = Ret tt w'
        /\ calls w' = calls dirty_world ++ [CallMemset 0x10001 0 0]
        /\ forall a, load 4096 (memory w') a = load 4096 (memory dirty_world) a).
Proof.
  split.
  - apply (zero_empty_region 4096 release_build granting_os 0x10000 dirty_world).
    reflexivity.
  - apply (zero_empty_region 4096 release_build granting_os 0x10001 dirty_world).
    vm_compute. discriminate.
Defined.

Lemma div_pred_same ps x : 0 < ps -> x mod ps <> 0 -> (x - 1) / ps = x / ps.
Proof.
  intros Hps Hx. pose proof (Z.div_mod x ps ltac:(lia)) as Hdm.
  pose proof (Z.mod_pos_bound x ps Hps) as Hb.
  symmetry. apply (Z.div_unique _ _ _ (x mod ps - 1)); lia.
Qed.

Lemma misaligned_spill_exists ps p size :
  0 < ps -> 0 < size -> is_aligned_block ps p size = false ->
  exists a, ~ (p <= a < p + size) /\ covers ps p size (a / ps) = true.
Proof.
  intros Hps Hsize Hal. unfold covers.
  replace (0 <? size) with true by (symmetry; apply Z.ltb_lt; exact Hsize).
  cbn [andb]. unfold is_aligned_block in Hal.
  destruct (Z.eqb_spec (p mod ps) 0) as [Hp | Hp].
  - (* the base is aligned, the end is not: the byte just after the region *)
    cbn [andb] in Hal. apply Z.eqb_neq in Hal.
    assert (Hend : (p + size) mod ps <> 0).
    { rewrite Z.add_mod, Hp, Z.add_0_l, Z.mod_mod by lia. exact Hal. }
    exists (p + size). split; [lia|].
    apply andb_true_iff. rewrite !Z.leb_le. split.
    + apply Z.div_le_mono; lia.
    + replace (p + size - 1) with ((p + size) - 1) by lia.
      rewrite div_pred_same by assumption. lia.
  - (* the base is not aligned: the byte just before the region *)
    exists (p - 1). split; [lia|].
    rewrite div_pred_same by assumption.
    apply andb_true_iff. rewrite !Z.leb_le. split; [lia|].
    apply Z.div_le_mono; lia.
Qed.

(** X5.  What the hint costs when it is wrong.  Without assertions,
    [zero<true>] on a region that is not page-aligned, once the system
    grants both calls, returns with every byte of every page the region
    touches readable and zero; and some byte on those pages lies outside
    the region.  So the call wipes data that is not the caller's. *)
Theorem zero_hint_wipes_neighbours ps cfg os p size w :
  0 < ps -> 0 < p -> 0 < size ->
  NDEBUG cfg = true -> is_aligned_block ps p size = false ->
  os_VirtualFree os w p size MEM_DECOMMIT = true ->
  os_VirtualAlloc os
    (with_memory (decommit_pages ps p size (memory w))
       (log_call (CallVirtualFree p size MEM_DECOMMIT) w))
    p size MEM_COMMIT PAGE_READWRITE <> nullptr ->
  exists w',
    zero ps cfg os true p size w = Ret tt w'
    /\ (forall a, covers ps p size (a / ps) = true ->
        load ps (memory w') a = Some 0)
    /\ (exists a, ~ (p <= a < p + size) /\ load ps (memory w') a = Some 0).
Proof.
  intros Hps Hp Hsize Hrel Hal Hf Ha.
  pose proof (zero_decommit_branch ps cfg os true p size w eq_refl (or_introl Hrel))
    as E.
  cbv zeta in E. rewrite Hf in E. apply Z.eqb_neq in Ha. rewrite Ha in E.
  assert (Hpn : (p =? nullptr) = false) by (apply Z.eqb_neq; unfold nullptr; lia).
  rewrite Hpn in E. unfold commit_if_asked in E. rewrite Hpn in E.
  change (Z.land MEM_COMMIT MEM_COMMIT =? 0) with false in E. cbn [orb] in E.
  eexists. split; [exact E|].
  assert (Hwipe : forall a, covers ps p size (a / ps) = true ->
            load ps (commit_pages ps p size (decommit_pages ps p size (memory w))) a
            = Some 0).
  { intros a Hc. unfold load, commit_pages, decommit_pages. cbn [committed bytes].
    rewrite Hc. reflexivity. }
  split; [exact Hwipe|].
  destruct (misaligned_spill_exists ps p size Hps Hsize Hal) as (a & Hout & Hc).
  exists a. split; [exact Hout | apply Hwipe; exact Hc].
Qed.

Lemma zero_hint_wipes_neighbours_witness :
  exists w',
    zero 4096 release_build granting_os true 0x10001 16 dirty_world = Ret tt w'
    /\ (forall a, covers 4096 0x10001 16 (a / 4096) = true ->
        load 4096 (memory w') a = Some 0)
    /\ (exists a, ~ (0x10001 <= a < 0x10001 + 16) /\ load 4096 (memory w') a = Some 0).
Proof.
  apply (zero_hint_wipes_neighbours 4096 release_build granting_os 0x10001 16
           dirty_world); try lia; try reflexivity.
  vm_compute. discriminate.
Defined.

(** ** Assertions and the zeroing policy do not change what is done *)

Lemma assert_same_NDEBUG cfg1 cfg2 c :
  NDEBUG cfg1 = NDEBUG cfg2 -> assert_ cfg1 c = assert_ cfg2 c.
Proof. intros H. unfold assert_. rewrite H. reflexivity. Qed.

Lemma notify_not_using_unfold ps cfg os p size w :
  notify_not_using ps cfg os p size w =
  if NDEBUG cfg || is_aligned_block ps p size
  then notify_not_using ps release_build os p size w
  else AssertFail w.
Proof.
  unfold notify_not_using, bind, assert_.
  destruct (NDEBUG cfg), (is_aligned_block ps p size); reflexivity.
Qed.

Lemma notify_using_unfold ps cfg os z p size w :
  notify_using ps cfg os z p size w =
  if NDEBUG cfg || (is_aligned_block ps p size || ZeroMem_eqb z NoZero)
  then notify_using ps release_build os YesZero p size w
  else AssertFail w.
Proof.
  unfold notify_using, bind, assert_.
  destruct (NDEBUG cfg), (is_aligned_block ps p size), z; reflexivity.
Qed.

Lemma zero_unfold ps cfg os page_aligned p size w :
  zero ps cfg os page_aligned p size w =
  if negb (NDEBUG cfg) && page_aligned && negb (is_aligned_block ps p size)
  then AssertFail w
  else zero ps release_build os page_aligned p size w.
Proof.
  destruct (NDEBUG cfg) eqn:Hd; cbn [negb andb].
  - unfold zero, notify_not_using, notify_using, bind, assert_.
    rewrite Hd. reflexivity.
  - destruct (is_aligned_block ps p size) eqn:Hal.
    + rewrite andb_false_r.
      unfold zero, notify_not_using, notify_using, bind, assert_.
      rewrite Hd, Hal. reflexivity.
    + destruct page_aligned; cbn [negb andb];
        unfold zero, bind, assert_; rewrite ?Hd, Hal; reflexivity.
Qed.

(** X6.  Assertions only stop a call, they never change one.  For
    [notify_not_using], [notify_using] and [zero], two builds that both
    let a call past its assertions (with or without [NDEBUG]) produce
    the same outcome: same calls, same result, same memory. *)
Theorem assertions_do_not_change_outcomes ps cfg1 cfg2 os w p size :
  ((forall w', notify_not_using ps cfg1 os p size w <> AssertFail w') ->
   (forall w', notify_not_using ps cfg2 os p size w <> AssertFail w') ->
   notify_not_using ps cfg1 os p size w = notify_not_using ps cfg2 os p size w)
  /\ (forall z,
      (forall w', notify_using ps cfg1 os z p size w <> AssertFail w') ->
      (forall w', notify_using ps cfg2 os z p size w <> AssertFail w') ->
      notify_using ps cfg1 os z p size w = notify_using ps cfg2 os z p size w)
  /\ (forall page_aligned,
      (forall w', zero ps cfg1 os page_aligned p size w <> AssertFail w') ->
      (forall w', zero ps cfg2 os page_aligned p size w <> AssertFail w') ->
      zero ps cfg1 os page_aligned p size w = zero ps cfg2 os page_aligned p size w).
Proof.
  split; [|split].
  - intros H1 H2.
    rewrite (notify_not_using_unfold ps cfg1) in H1 |- *.
    rewrite (notify_not_using_unfold ps cfg2) in H2 |- *.
    destruct (NDEBUG cfg1 || _); [|exfalso; exact (H1 w eq_refl)].
    destruct (NDEBUG cfg2 || _); [|exfalso; exact (H2 w eq_refl)].
    reflexivity.
  - intros z Hz1 Hz2.
    rewrite (notify_using_unfold ps cfg1) in Hz1 |- *.
    rewrite (notify_using_unfold ps cfg2) in Hz2 |- *.
    destruct (NDEBUG cfg1 || _); [|exfalso; exact (Hz1 w eq_refl)].
    destruct (NDEBUG cfg2 || _); [|exfalso; exact (Hz2 w eq_refl)].
    reflexivity.
  - intros a Ha1 Ha2.
    rewrite (zero_unfold ps cfg1) in Ha1 |- *.
    rewrite (zero_unfold ps cfg2) in Ha2 |- *.
    destruct (negb (NDEBUG cfg1) && _ && _); [exfalso; exact (Ha1 w eq_refl)|].
    destruct (negb (NDEBUG cfg2) && _ && _); [exfalso; exact (Ha2 w eq_refl)|].
    reflexivity.
Qed.

Lemma assertions_do_not_change_outcomes_witness :
  zero 4096 debug_build granting_os true 0x10000 4096 dirty_world
  = zero 4096 release_build granting_os true 0x10000 4096 dirty_world
  /\ notify_not_using 4096 debug_build granting_os 0x10000 4096 dirty_world
     = notify_not_using 4096 release_build granting_os 0x10000 4096 dirty_world.
Proof.
  destruct (assertions_do_not_change_outcomes 4096 debug_build release_build
              granting_os dirty_world 0x10000 4096) as (Hn & _ & Hz).
  split.
  - apply Hz; intros w'; vm_compute; discriminate.
  - apply Hn; intros w'; vm_compute; discriminate.
Defined.

Lemma load_commit_committed ps base size m a :
  committed m (a / ps) = true ->
  load ps (commit_pages ps base size m) a = load ps m a.
Proof.
  intros Hc. unfold load, commit_pages. cbn [committed bytes].
  rewrite Hc, orb_true_r, andb_false_r. reflexivity.
Qed.

(** X7.  The zeroing policy of [notify_using] is a promise about the
    region, not an action on it.  Two calls that differ only in the
    policy, once past the assertion, have the same outcome; and whatever
    the policy, a byte that could be read before a returning call reads
    the same after it: [notify_using<YesZero>] does not zero memory that
    is already committed. *)
Theorem notify_using_policy_only_guards ps cfg os z1 z2 p size w :
  (forall w', notify_using ps cfg os z1 p size w <> AssertFail w') ->
  (forall w', notify_using ps cfg os z2 p size w <> AssertFail w') ->
  notify_using ps cfg os z1 p size w = notify_using ps cfg os z2 p size w
  /\ (forall u w' a,
      notify_using ps cfg os z1 p size w = Ret u w' ->
      committed (memory w) (a / ps) = true ->
      load ps (memory w') a = load ps (memory w) a).
Proof.
  intros H1 H2. split.
  - rewrite (notify_using_unfold ps cfg os z1) in H1 |- *.
    rewrite (notify_using_unfold ps cfg os z2) in H2 |- *.
    destruct (NDEBUG cfg || (_ || ZeroMem_eqb z1 NoZero));
      [|exfalso; exact (H1 w eq_refl)].
    destruct (NDEBUG cfg || (_ || ZeroMem_eqb z2 NoZero));
      [|exfalso; exact (H2 w eq_refl)].
    reflexivity.
  - intros u w' a E Hc. rewrite (notify_using_unfold ps cfg os z1) in E.
    destruct (NDEBUG cfg || _); [|discriminate].
    unfold notify_using, bind in E.
    rewrite (assert_passes release_build _ w (or_introl eq_refl)) in E.
    unfold VirtualAlloc in E.
    destruct (os_VirtualAlloc os w p size MEM_COMMIT PAGE_READWRITE =? nullptr) eqn:Er;
      cbv beta iota in E; rewrite Er in E; [discriminate|].
    injection E as _ <-. unfold commit_if_asked.
    destruct (_ || _); cbn [memory with_memory log_call]; [reflexivity|].
    apply load_commit_committed. exact Hc.
Qed.

Lemma notify_using_policy_only_guards_witness :
  notify_using 4096 debug_build granting_os NoZero 0x10000 4096 dirty_world
  = notify_using 4096 debug_build granting_os YesZero 0x10000 4096 dirty_world
  /\ load 4096
       (memory (final (notify_using 4096 debug_build granting_os YesZero 0x10000
                         4096 dirty_world))) 0x10005
     = Some 0xAA.
Proof.
  destruct (notify_using_policy_only_guards 4096 debug_build granting_os
              YesZero NoZero 0x10000 4096 dirty_world) as (Heq & Hkeep);
    try (intros w'; vm_compute; discriminate).
  split; [symmetry; exact Heq|].
  exact (eq_trans
           (Hkeep tt
              (final (notify_using 4096 debug_build granting_os YesZero 0x10000
                        4096 dirty_world)) 0x10005 eq_refl eq_refl)
           eq_refl).
Defined.

(** ** [reserve]: memory, and the order of attempts *)

Lemma frame_ret R {A} (a : A) : (forall w, R w w) -> frame R (ret a).
Proof. intros Hrefl w. apply Hrefl. Qed.

Lemma frame_bind R {A B} (m : PAL A) (k : A -> PAL B) :
  (forall w1 w2 w3, R w1 w2 -> R w2 w3 -> R w1 w3) ->
  frame R m -> (forall a, frame R (k a)) -> frame R (bind m k).
Proof.
  intros Htrans Hm Hk w. unfold bind. specialize (Hm w).
  destruct (m w) as [a w'| | | |]; try exact Hm.
  cbn [final] in Hm. eapply Htrans; [exact Hm | apply Hk].
Qed.

Lemma frame_read R {A B} (g : World -> B) (f : B -> PAL A) :
  (forall x, frame R (f x)) -> frame R (fun w => f (g w) w).
Proof. intros H w. apply H. Qed.

Lemma same_trans {X} (f : World -> X) w1 w2 w3 :
  same f w1 w2 -> same f w2 w3 -> same f w1 w3.
Proof. unfold same. congruence. Qed.

Lemma VirtualAlloc_reserve_only_memory ps os p size protect :
  frame (same memory) (VirtualAlloc ps os p size MEM_RESERVE protect).
Proof.
  intros w. unfold same, VirtualAlloc, commit_if_asked.
  change (Z.land MEM_RESERVE MEM_COMMIT =? 0) with true. rewrite orb_true_r.
  destruct (_ =? nullptr); reflexivity.
Qed.

Lemma reserve_loop_uncommitted_memory ps os size :
  forall fuel retries,
    frame (same memory) (reserve_loop ps os fuel size MEM_RESERVE retries).
Proof.
  induction fuel as [|fuel IH]; intros retries; cbn [reserve_loop];
    apply (frame_read (same memory) bump_ptr
             (fun b => p <- VirtualAlloc ps os b size MEM_RESERVE PAGE_READWRITE ;; _));
    intros b; apply frame_bind;
    [ apply same_trans | apply VirtualAlloc_reserve_only_memory | intros p
    | apply same_trans | apply VirtualAlloc_reserve_only_memory | intros p ];
    (apply frame_bind; [apply same_trans | intros w; reflexivity | intros _]);
    destruct (_ && _); try (intros w; reflexivity).
  apply IH.
Qed.

(** X8.  A reservation that is not asked to commit leaves memory alone.
    With [committed = false], whichever [reserve] the build contains and
    however the call ends (pointer, null, or [error]), the committed
    pages and every byte are exactly as before. *)
Theorem reserve_uncommitted_leaves_memory ps os s size align w :
  memory (final (reserve_with ps os s false size align w)) = memory w.
Proof.
  destruct s; cbn [reserve_with].
  - apply (reserve_loop_uncommitted_memory ps os size 1000 1000 w).
  - unfold reserve_extended, bind, VirtualAlloc2FromApp, commit_if_asked.
    cbn [reserve_flags].
    change (Z.land MEM_RESERVE MEM_COMMIT =? 0) with true. rewrite orb_true_r.
    destruct (_ =? nullptr); reflexivity.
  - unfold reserve_plain, bind. cbn [reserve_flags].
    pose proof (VirtualAlloc_reserve_only_memory ps os nullptr size PAGE_READWRITE w)
      as H. unfold same in H.
    destruct (VirtualAlloc ps os nullptr size MEM_RESERVE PAGE_READWRITE w)
      as [r w'| | | |]; try exact H.
    destruct (r =? nullptr); exact H.
Qed.

Lemma covers_inside ps p size a :
  0 < ps -> p <= a < p + size -> covers ps p size (a / ps) = true.
Proof.
  intros Hps Ha. unfold covers.
  rewrite !andb_true_iff, Z.ltb_lt, !Z.leb_le.
  repeat split; [lia | apply Z.div_le_mono; lia | apply Z.div_le_mono; lia].
Qed.

Lemma load_commit_inside ps p size m a :
  0 < ps -> p <= a < p + size ->
  exists v, load ps (commit_pages ps p size m) a = Some v
            /\ (load ps m a = None -> v = 0).
Proof.
  intros Hps Ha. unfold load, commit_pages. cbn [committed bytes].
  rewrite (covers_inside ps p size a Hps Ha). cbn [orb andb].
  destruct (committed m (a / ps)); cbn [negb]; eexists; split;
    try reflexivity; intros H; try discriminate; reflexivity.
Qed.

(** X9.  A reservation asked to commit hands back usable memory.  With
    [committed = true], the extended and the plain [reserve] either die
    in [error] with memory untouched, or return a pointer [p] such that
    every byte of [p, p + size) can be read, the bytes on pages that
    were not committed before read zero, and no byte that could be read
    before has changed. *)
Theorem reserve_committed_is_usable ps os s size align w :
  0 < ps -> s <> Simulated ->
  match reserve_with ps os s true size align w with
  | Ret p w' =>
      (forall a, p <= a < p + size ->
         exists v, load ps (memory w') a = Some v
                   /\ (load ps (memory w) a = None -> v = 0))
      /\ (forall a, committed (memory w) (a / ps) = true ->
          load ps (memory w') a = load ps (memory w) a)
  | Abort _ w' => memory w' = memory w
  | _ => False
  end.
Proof.
  intros Hps Hs.
  assert (Hflag : (Z.land (reserve_flags true) MEM_COMMIT =? 0) = false)
    by reflexivity.
  destruct s; [contradiction| |]; cbn [reserve_with].
  - unfold reserve_extended, bind, VirtualAlloc2FromApp.
    set (r := os_VirtualAlloc2FromApp os w size (reserve_flags true) PAGE_READWRITE _).
    unfold commit_if_asked. rewrite Hflag, orb_false_r.
    destruct (r =? nullptr) eqn:Er; [reflexivity|].
    unfold ret. cbn [memory with_memory log_call]. split.
    + intros a Ha. apply load_commit_inside; assumption.
    + intros a Hc. apply load_commit_committed. exact Hc.
  - unfold reserve_plain, bind, VirtualAlloc.
    set (r := os_VirtualAlloc os w nullptr size (reserve_flags true) PAGE_READWRITE).
    destruct (r =? nullptr) eqn:Er; cbv beta iota; rewrite Er; [reflexivity|].
    unfold ret, commit_if_asked. change (nullptr =? nullptr) with true.
    cbv beta iota. rewrite Er, Hflag. cbn [orb memory with_memory log_call]. split.
    + intros a Ha. apply load_commit_inside; assumption.
    + intros a Hc. apply load_commit_committed. exact Hc.
Qed.

Lemma reserve_committed_is_usable_witness :
  match reserve_with 4096 granting_os Plain true 8192 0 initial_world with
  | Ret p w' =>
      (forall a, p <= a < p + 8192 ->
         exists v, load 4096 (memory w') a = Some v
                   /\ (load 4096 (memory initial_world) a = None -> v = 0))
      /\ (forall a, committed (memory initial_world) (a / 4096) = true ->
          load 4096 (memory w') a = load 4096 (memory initial_world) a)
  | Abort _ w' => memory w' = memory initial_world
  | _ => False
  end.
Proof.
  apply (reserve_committed_is_usable 4096 granting_os Plain 8192 0 initial_world).
  - lia.
  - discriminate.
Defined.

(** X10.  The simulated [reserve] returns the system's first non-null
    answer.  Write world(k) for the world after [k] turns of the loop
    (an attempt at the cursor, then the cursor moved on) and answer(k)
    for what the system returns to the attempt made in world(k).  Then
    for some [n] between 1 and 1000 the call returns answer(n-1) in
    world(n), every earlier answer was null, and if [n] is less than
    1000 the returned pointer is not null. *)
Theorem reserve_simulated_first_success ps os committed size w :
  let flags := reserve_flags committed in
  let world k := Nat.iter k (after_attempt ps os size flags) w in
  let answer k :=
    os_VirtualAlloc os (world k) (bump_ptr (world k)) size flags PAGE_READWRITE in
  exists n : nat,
    (1 <= n <= 1000)%nat
    /\ reserve_simulated ps os committed size w = Ret (answer (n - 1)%nat) (world n)
    /\ (forall k, (k < n - 1)%nat -> answer k = nullptr)
    /\ ((n < 1000)%nat -> answer (n - 1)%nat <> nullptr).
Proof.
  intros flags world answer. unfold reserve_simulated.
  destruct (reserve_loop_first_success ps os size flags 1000 1000 w)
    as (n & Hn & E & Hfail & Hlast); [lia | unfold SIZE_T_MODULUS; lia |].
  exists n. split; [lia|]. split; [exact E|]. split; [exact Hfail|].
  intros Hlt. apply Hlast. lia.
Qed.

(** ** Output, and who writes which static *)

Lemma quiet_ret {A} (a : A) : quiet (ret a).
Proof. intros w. reflexivity. Qed.

Lemma quiet_bind {A B} (m : PAL A) (k : A -> PAL B) :
  quiet m -> (forall a, quiet (k a)) -> quiet (bind m k).
Proof.
  intros Hm Hk w. unfold bind. specialize (Hm w).
  destruct (m w) as [a w'| | | |]; try exact Hm.
  cbn [prints_only_to_die] in Hm. specialize (Hk a w').
  unfold prints_only_to_die in *. destruct (k a w'); rewrite <- Hm; exact Hk.
Qed.

Lemma quiet_read {A B} (g : World -> B) (f : B -> PAL A) :
  (forall x, quiet (f x)) -> quiet (fun w => f (g w) w).
Proof. intros H w. apply H. Qed.

Lemma quiet_error {A} str : quiet (@error A str).
Proof. intros w. reflexivity. Qed.

Lemma quiet_assert cfg c : quiet (assert_ cfg c).
Proof. intros w. unfold assert_. destruct (NDEBUG cfg), c; reflexivity. Qed.

Lemma quiet_VirtualFree ps os p size ty : quiet (VirtualFree ps os p size ty).
Proof. intros w. unfold VirtualFree. destruct (_ && _); reflexivity. Qed.

Lemma quiet_VirtualAlloc ps os p size flags protect :
  quiet (VirtualAlloc ps os p size flags protect).
Proof.
  intros w. destruct (VirtualAlloc_inv ps os p size flags protect w)
    as (w' & -> & _ & Hs & _). exact Hs.
Qed.

Lemma quiet_VirtualAlloc2FromApp ps os size flags protect req :
  quiet (VirtualAlloc2FromApp ps os size flags protect req).
Proof.
  intros w. destruct (VirtualAlloc2FromApp_inv ps os size flags protect req w)
    as (w' & -> & _ & Hs & _). exact Hs.
Qed.

Lemma quiet_memset ps p ch size : quiet (memset ps p ch size).
Proof. intros w. unfold memset. destruct (range_committed _ _ _ _); reflexivity. Qed.

Create HintDb quiet.
#[local] Hint Resolve quiet_ret quiet_error quiet_assert quiet_VirtualFree
  quiet_VirtualAlloc quiet_VirtualAlloc2FromApp quiet_memset : quiet.

Ltac quiet_step :=
  first [ apply quiet_bind; [|intro]
        | match goal with |- quiet (if ?c then _ else _) => destruct c end
        | solve [auto with quiet]
        | solve [intros ?; reflexivity] ].

Lemma quiet_reserve_loop ps os size flags :
  forall fuel retries, quiet (reserve_loop ps os fuel size flags retries).
Proof.
  induction fuel as [|fuel IH]; intros retries; cbn [reserve_loop];
    apply (quiet_read bump_ptr
             (fun b => p <- VirtualAlloc ps os b size flags PAGE_READWRITE ;; _));
    intros b; repeat quiet_step.
Qed.

Lemma quiet_run_op ps cfg os o : quiet (run_op ps cfg os o).
Proof.
  destruct o; cbn [run_op].
  - unfold PALWindows_ctor. repeat quiet_step.
  - apply quiet_bind; [|intro; apply quiet_ret]. intros w. reflexivity.
  - intros w. reflexivity.
  - unfold notify_not_using. repeat quiet_step.
  - unfold notify_using. repeat quiet_step.
  - unfold zero, notify_not_using, notify_using. repeat quiet_step.
  - apply quiet_bind; [|intro; apply quiet_ret].
    unfold reserve, reserve_with. destruct (strategy cfg);
      unfold reserve_simulated, reserve_extended, reserve_plain;
      first [ apply quiet_reserve_loop | repeat quiet_step ].
Qed.

(** X11.  The layer prints only in order to die.  Whatever member
    functions a client calls, in whatever order: if the run ends in
    [error], standard output has gained exactly the one message [error]
    was given; in every other case it has gained nothing. *)
Theorem output_only_on_the_fatal_path ps cfg os ops w :
  match run_ops ps cfg os ops w with
  | Abort msg w' => stdout w' = stdout w ++ [msg]
  | Ret _ w' | AssertFail w' | Fault w' | OutOfFuel w' => stdout w' = stdout w
  end.
Proof.
  revert w. change (quiet (run_ops ps cfg os ops)).
  induction ops as [|o ops IH]; cbn [run_ops].
  - apply quiet_ret.
  - apply quiet_bind; [apply quiet_run_op | intros _; exact IH].
Qed.

Section Frames.
Context {X : Type} (f : World -> X).
Hypothesis f_log : forall c w, f (log_call c w) = f w.
Hypothesis f_memory : forall m w, f (with_memory m w) = f w.
Hypothesis f_print : forall s w, f (print s w) = f w.
Hypothesis f_registered : forall b w, f (with_registered b w) = f w.
Hypothesis f_handle : forall h w, f (with_lowMemoryObject h w) = f w.

Lemma same_commit_if_asked ps flags base size w :
  f (commit_if_asked ps flags base size w) = f w.
Proof. unfold commit_if_asked. destruct (_ || _); [reflexivity | apply f_memory]. Qed.

Lemma same_assert cfg c : frame (same f) (assert_ cfg c).
Proof. intros w. unfold same, assert_. destruct (NDEBUG cfg), c; reflexivity. Qed.

Lemma same_error {A} str : frame (same f) (@error A str).
Proof. intros w. apply f_print. Qed.

Lemma same_VirtualFree ps os p size ty : frame (same f) (VirtualFree ps os p size ty).
Proof.
  intros w. unfold same, VirtualFree.
  destruct (_ && _); cbn [final]; rewrite ?f_memory; apply f_log.
Qed.

Lemma same_VirtualAlloc ps os p size flags protect :
  frame (same f) (VirtualAlloc ps os p size flags protect).
Proof.
  intros w. unfold same, VirtualAlloc.
  destruct (_ =? nullptr); cbn [final]; rewrite ?same_commit_if_asked; apply f_log.
Qed.

Lemma same_VirtualAlloc2FromApp ps os size flags protect req :
  frame (same f) (VirtualAlloc2FromApp ps os size flags protect req).
Proof.
  intros w. unfold same, VirtualAlloc2FromApp. cbn [final].
  rewrite same_commit_if_asked. apply f_log.
Qed.

Lemma same_memset ps p ch size : frame (same f) (memset ps p ch size).
Proof.
  intros w. unfold same, memset.
  destruct (range_committed _ _ _ _); cbn [final]; rewrite ?f_memory; apply f_log.
Qed.

Ltac same_step :=
  first [ apply frame_bind; [apply same_trans| |intro]
        | match goal with |- frame _ (if ?c then _ else _) => destruct c end
        | apply same_assert | apply same_error | apply same_VirtualFree
        | apply same_VirtualAlloc | apply same_VirtualAlloc2FromApp
        | apply same_memset
        | solve [intros ?; reflexivity] ].

Lemma same_notify_not_using ps cfg os p size :
  frame (same f) (notify_not_using ps cfg os p size).
Proof. unfold notify_not_using. repeat same_step. Qed.

Lemma same_notify_using ps cfg os z p size :
  frame (same f) (notify_using ps cfg os z p size).
Proof. unfold notify_using. repeat same_step. Qed.

Lemma same_zero ps cfg os a p size : frame (same f) (zero ps cfg os a p size).
Proof. unfold zero, notify_not_using, notify_using. repeat same_step. Qed.

Lemma same_PALWindows_ctor os : frame (same f) (PALWindows_ctor os).
Proof.
  intros w. unfold same, PALWindows_ctor, bind, exchange.
  destruct (registered_for_notifications w); cbn;
    rewrite ?f_log, ?f_handle, ?f_log; apply f_registered.
Qed.

Lemma same_expensive_low_memory_check os :
  frame (same f) (expensive_low_memory_check os).
Proof. intros w. apply f_log. Qed.

Lemma same_reserve_extended ps os c size align :
  frame (same f) (reserve_extended ps os c size align).
Proof. unfold reserve_extended. repeat same_step. Qed.

Lemma same_reserve_plain ps os c size :
  frame (same f) (reserve_plain ps os c size).
Proof. unfold reserve_plain. repeat same_step. Qed.

Lemma same_reserve_loop ps os size flags :
  (forall b w, f (with_bump_ptr b w) = f w) ->
  forall fuel retries, frame (same f) (reserve_loop ps os fuel size flags retries).
Proof.
  intros f_bump.
  induction fuel as [|fuel IH]; intros retries; cbn [reserve_loop];
    apply (frame_read (same f) bump_ptr
             (fun b => p <- VirtualAlloc ps os b size flags PAGE_READWRITE ;; _));
    intros b; apply frame_bind;
    [ apply same_trans | apply same_VirtualAlloc | intros p
    | apply same_trans | apply same_VirtualAlloc | intros p ];
    (apply frame_bind; [apply same_trans | intros w; apply f_bump | intros _]);
    destruct (_ && _); try (intros w; reflexivity).
  apply IH.
Qed.
End Frames.

(** X12.  What the functions written out in this header leave alone.
    Take any member function other than
    [register_for_low_memory_callback], whose body is [PalNotifier]'s.
    It does not change the list of low-memory callbacks; it does not
    move the bump cursor, unless it is the simulated [reserve]; and if
    it is the constructor or the low-memory query it does not touch
    memory.  This holds however the call ends. *)
Theorem each_static_has_one_writer ps cfg os o w :
  is_register_op o = false ->
  low_memory_callbacks (final (run_op ps cfg os o w)) = low_memory_callbacks w
  /\ (is_reserve_op o = false \/ strategy cfg <> Simulated ->
      bump_ptr (final (run_op ps cfg os o w)) = bump_ptr w)
  /\ (is_notifier_op o = true ->
      memory (final (run_op ps cfg os o w)) = memory w).
Proof.
  intros Hreg. split; [|split].
  - assert (H : frame (same low_memory_callbacks) (run_op ps cfg os o)).
    { destruct o; try discriminate; cbn [run_op].
      - apply same_PALWindows_ctor; reflexivity.
      - apply frame_bind; [apply same_trans | | intros b w'; reflexivity].
        apply same_expensive_low_memory_check; reflexivity.
      - apply same_notify_not_using; reflexivity.
      - apply same_notify_using; reflexivity.
      - apply same_zero; reflexivity.
      - apply frame_bind; [apply same_trans | | intros b w'; reflexivity].
        unfold reserve, reserve_with. destruct (strategy cfg).
        + apply same_reserve_loop; reflexivity.
        + apply same_reserve_extended; reflexivity.
        + apply same_reserve_plain; reflexivity. }
    apply H.
  - intros Ho.
    assert (H : frame (same bump_ptr) (run_op ps cfg os o)).
    { destruct o; try discriminate; cbn [run_op].
      - apply same_PALWindows_ctor; reflexivity.
      - apply frame_bind; [apply same_trans | | intros b w'; reflexivity].
        apply same_expensive_low_memory_check; reflexivity.
      - apply same_notify_not_using; reflexivity.
      - apply same_notify_using; reflexivity.
      - apply same_zero; reflexivity.
      - destruct Ho as [Ho | Ho]; [discriminate|].
        apply frame_bind; [apply same_trans | | intros b w'; reflexivity].
        unfold reserve, reserve_with. destruct (strategy cfg).
        + contradiction.
        + apply same_reserve_extended; reflexivity.
        + apply same_reserve_plain; reflexivity. }
    apply H.
  - intros Ho. destruct o; try discriminate; cbn [run_op].
    + apply (same_PALWindows_ctor memory); reflexivity.
    + reflexivity.
Qed.

Lemma each_static_has_one_writer_witness :
  low_memory_callbacks
    (final (run_op 4096 testing_build granting_os (OpReserve true 4096 0)
              initial_world)) = []
  /\ bump_ptr (final (run_op 4096 release_build granting_os (OpZero false 0x10000 4096)
                        dirty_world)) = systematic_bump_ptr_init
  /\ memory (final (run_op 4096 release_build granting_os OpConstruct dirty_world))
     = memory dirty_world.
Proof.
  split; [|split].
  - apply (each_static_has_one_writer 4096 testing_build granting_os
             (OpReserve true 4096 0) initial_world). reflexivity.
  - apply (each_static_has_one_writer 4096 release_build granting_os
             (OpZero false 0x10000 4096) dirty_world); [reflexivity|].
    left. reflexivity.
  - apply (each_static_has_one_writer 4096 release_build granting_os
             OpConstruct dirty_world); reflexivity.
Defined.

(** ** The constructor, alone and among others *)

(** X13.  Constructing twice is constructing once.  Two constructors run
    one after the other leave the process in exactly the state one
    constructor leaves it in: same flag, same handle, same calls made. *)
Theorem PALWindows_ctor_idempotent os w :
  (PALWindows_ctor os ;;; PALWindows_ctor os) w = PALWindows_ctor os w.
Proof.
  unfold bind at 1. destruct (registered_for_notifications w) eqn:Hreg.
  - rewrite (PALWindows_ctor_registered os w Hreg).
    rewrite PALWindows_ctor_registered by reflexivity. reflexivity.
  - rewrite (PALWindows_ctor_unregistered os w Hreg). cbv zeta.
    rewrite PALWindows_ctor_registered by reflexivity. reflexivity.
Qed.

(** X14.  The handle is used as it comes.  A first construction followed
    by [expensive_low_memory_check] makes exactly three calls: the
    creation of the notification object, the registration of the wait on
    the handle that creation returned, and the query on that same
    handle; none of them is skipped when the handle is null, and the
    sequence always returns. *)
Theorem handle_is_used_unchecked os w :
  registered_for_notifications w = false ->
  let h := os_CreateMemoryResourceNotification os (with_registered true w)
             LowMemoryResourceNotification in
  exists b w',
    (PALWindows_ctor os ;;; expensive_low_memory_check os) w = Ret b w'
    /\ lowMemoryObject w' = h
    /\ calls w' = calls w ++
         [CallCreateMemoryResourceNotification LowMemoryResourceNotification;
          CallRegisterWaitForSingleObject h INFINITE WT_EXECUTEDEFAULT;
          CallQueryMemoryResourceNotification h].
Proof.
  intros Hreg h. unfold bind at 1.
  rewrite (PALWindows_ctor_unregistered os w Hreg). cbv zeta. fold h.
  do 2 eexists. split; [reflexivity|]. cbn. split; [reflexivity|].
  rewrite <- !app_assoc. reflexivity.
Qed.

Lemma handle_is_used_unchecked_witness :
  exists b w',
    (PALWindows_ctor failing_os ;;; expensive_low_memory_check failing_os)
      initial_world = Ret b w'
    /\ lowMemoryObject w' = nullptr
    /\ calls w' =
         [CallCreateMemoryResourceNotification LowMemoryResourceNotification;
          CallRegisterWaitForSingleObject nullptr INFINITE WT_EXECUTEDEFAULT;
          CallQueryMemoryResourceNotification nullptr].
Proof.
  exact (handle_is_used_unchecked failing_os initial_world eq_refl).
Defined.

Lemma ctor_step_progress os pc w :
  exists pc' w',
    ctor_step os pc w = Ret pc' w'
    /\ (Nat.min 3 (S (pc_rank pc)) <= pc_rank pc')%nat.
Proof.
  destruct pc; cbn [ctor_step]; unfold bind, exchange, ret,
    CreateMemoryResourceNotification, RegisterWaitForSingleObject;
    try (do 2 eexists; split; [reflexivity | cbn; lia]).
  destruct (registered_for_notifications w);
    do 2 eexists; (split; [reflexivity | cbn; lia]).
Qed.

Lemma sys_step_rank os s i j :
  ((if Nat.eqb i j then Nat.min 3 (S (pc_rank (sys_threads s i)))
    else pc_rank (sys_threads s i))
   <= pc_rank (sys_threads (sys_step os s j) i))%nat.
Proof.
  unfold sys_step.
  destruct (ctor_step_progress os (sys_threads s j) (sys_world s))
    as (pc' & w' & -> & Hrank).
  cbn [sys_threads]. destruct (Nat.eqb_spec i j) as [-> | Hne]; [exact Hrank | lia].
Qed.

Lemma run_schedule_rank os i sched :
  forall s,
    (Nat.min 3 (pc_rank (sys_threads s i) + count_occ Nat.eq_dec sched i)
     <= pc_rank (sys_threads (run_schedule os sched s) i))%nat.
Proof.
  induction sched as [|j sched IH]; intros s.
  - cbn [run_schedule fold_left count_occ]. rewrite Nat.add_0_r.
    apply Nat.le_min_r.
  - cbn [run_schedule fold_left]. specialize (IH (sys_step os s j)).
    fold (run_schedule os sched (sys_step os s j)).
    pose proof (sys_step_rank os s i j) as Hstep.
    destruct (Nat.eqb_spec i j) as [-> | Hne].
    + rewrite count_occ_cons_eq by reflexivity. lia.
    + rewrite count_occ_cons_neq by congruence. lia.
Qed.

(** X15.  Constructors never wait for each other.  Under any schedule
    and for any system, a thread that has been given three steps has
    finished its constructor, whatever the other threads did or did not
    do in between. *)
Theorem constructors_are_wait_free os w sched i :
  (3 <= count_occ Nat.eq_dec sched i)%nat ->
  sys_threads (run_schedule os sched (sys_init w)) i = Constructed.
Proof.
  intros Hsteps.
  pose proof (run_schedule_rank os i sched (sys_init w)) as Hrank.
  cbn [sys_init sys_threads pc_rank] in Hrank.
  destruct (sys_threads (run_schedule os sched (sys_init w)) i);
    cbn [pc_rank] in Hrank; try lia. reflexivity.
Qed.

Lemma constructors_are_wait_free_witness :
  sys_threads (run_schedule failing_os [2; 0; 2; 1; 2]%nat (sys_init initial_world))
    2%nat = Constructed.
Proof.
  apply (constructors_are_wait_free failing_os initial_world [2; 0; 2; 1; 2]%nat 2%nat).
  cbn. lia.
Defined.

(** X16.  Losing the race does not mean the subscription exists.  When
    one thread has done its exchange and another then runs its
    constructor, the second constructor is finished while no
    subscription call has been made and the stored handle is still what
    it was; a low-memory query made at that moment goes to that old
    handle. *)
Theorem loser_returns_before_subscription os w i j :
  i <> j -> registered_for_notifications w = false ->
  let s := run_schedule os [i; j] (sys_init w) in
  sys_threads s j = Constructed
  /\ sys_threads s i = AtCreate
  /\ sys_log s = []
  /\ calls (sys_world s) = calls w
  /\ lowMemoryObject (sys_world s) = lowMemoryObject w
  /\ calls (final (expensive_low_memory_check os (sys_world s)))
     = calls w ++ [CallQueryMemoryResourceNotification (lowMemoryObject w)].
Proof.
  intros Hij Hreg s.
  assert (Hji : Nat.eqb j i = false) by (apply Nat.eqb_neq; congruence).
  assert (Hij' : Nat.eqb i j = false) by (apply Nat.eqb_neq; congruence).
  assert (E1 : sys_step os (sys_init w) i =
               {| sys_world := with_registered true w;
                  sys_threads := fun k => if Nat.eqb k i then AtCreate else AtExchange;
                  sys_log := []; sys_flips := [i] |}).
  { unfold sys_step, sys_init. cbn [sys_threads sys_world sys_log sys_flips].
    unfold ctor_step, bind, exchange, ret. rewrite Hreg.
    cbn [negb with_registered calls app]. rewrite skipn_length_self. reflexivity. }
  assert (E2 : s =
               {| sys_world := with_registered true (with_registered true w);
                  sys_threads := fun k => if Nat.eqb k j then Constructed
                                          else if Nat.eqb k i then AtCreate
                                          else AtExchange;
                  sys_log := []; sys_flips := [i] |}).
  { subst s. cbn [run_schedule fold_left]. rewrite E1. unfold sys_step.
    cbn [sys_threads sys_world sys_log sys_flips]. rewrite Hji.
    unfold ctor_step, bind, exchange, ret.
    cbn [negb with_registered registered_for_notifications calls app].
    rewrite skipn_length_self. reflexivity. }
  rewrite E2. cbn [sys_threads sys_world sys_log].
  rewrite Nat.eqb_refl, Hij', Nat.eqb_refl. repeat split.
Qed.

Lemma loser_returns_before_subscription_witness :
  let s := run_schedule granting_os [0; 1]%nat (sys_init initial_world) in
  sys_threads s 1%nat = Constructed /\ sys_log s = []
  /\ lowMemoryObject (sys_world s) = nullptr.
Proof.
  destruct (loser_returns_before_subscription granting_os initial_world 0%nat 1%nat
              ltac:(discriminate) eq_refl) as (H1 & _ & H3 & _ & H5 & _).
  cbv zeta. split; [exact H1|]. split; [exact H3 | exact H5].
Defined.

(** ** The capability mask, bit by bit *)

(** X17.  [pal_features] advertises nothing else.  With the two feature
    constants at bits [i] and [j], every other bit of the mask is clear
    in every build. *)
Theorem pal_features_no_other_bit cfg i j k :
  0 <= i -> 0 <= j -> 0 <= k -> k <> i -> k <> j ->
  Z.testbit (pal_features (2 ^ i) (2 ^ j) cfg) k = false.
Proof.
  intros Hi Hj Hk Hki Hkj. unfold pal_features.
  rewrite Z.lor_spec, Z.pow2_bits_eqb by assumption.
  replace (i =? k) with false by (symmetry; apply Z.eqb_neq; congruence).
  destruct (PLATFORM_HAS_VIRTUALALLOC2 cfg); cbn [orb].
  - rewrite Z.pow2_bits_eqb by assumption. apply Z.eqb_neq. congruence.
  - apply Z.bits_0.
Qed.

Lemma pal_features_no_other_bit_witness :
  Z.testbit (pal_features (2 ^ 0) (2 ^ 1) release_build) 2 = false.
Proof.
  apply (pal_features_no_other_bit release_build 0 1 2); lia.
Defined.

(** ** Zeroing again *)

Lemma zero_returns_post ps cfg os page_aligned p size w u w' :
  0 < ps -> 0 < p ->
  (page_aligned = true -> is_aligned_block ps p size = true) ->
  zero ps cfg os page_aligned p size w = Ret u w' ->
  (forall a, p <= a < p + size -> load ps (memory w') a = Some 0)
  /\ (forall a, ~ (p <= a < p + size) -> load ps (memory w') a = load ps (memory w) a).
Proof.
  intros Hps Hp Hhint E.
  destruct (is_aligned_block ps p size) eqn:Hal.
  - pose proof (zero_decommit_path ps cfg os page_aligned p size w Hp Hal) as Hz.
    cbv zeta in Hz. rewrite E in Hz. destruct Hz as (_ & _ & ->). split; intros a Ha.
    + apply load_recommit_inside; assumption.
    + apply load_recommit_outside; assumption.
  - assert (page_aligned = false)
      by (destruct page_aligned; [discriminate (Hhint eq_refl) | reflexivity]).
    subst page_aligned.
    pose proof (zero_memset_path ps cfg os p size w Hal) as Hz.
    rewrite E in Hz. destruct Hz as (Hrc & ->). split; intros a Ha.
    + apply load_fill_inside; assumption.
    + apply load_fill_outside. exact Ha.
Qed.

(** X18.  Zeroing a region twice is zeroing it once.  When [zero] has
    returned and is called again on the same region and returns again,
    no load anywhere tells the memory after the second call from the
    memory after the first. *)
Theorem zero_twice_is_zero_once ps cfg os page_aligned p size w u1 w1 u2 w2 :
  0 < ps -> 0 < p ->
  (page_aligned = true -> is_aligned_block ps p size = true) ->
  zero ps cfg os page_aligned p size w = Ret u1 w1 ->
  zero ps cfg os page_aligned p size w1 = Ret u2 w2 ->
  forall a, load ps (memory w2) a = load ps (memory w1) a.
Proof.
  intros Hps Hp Hhint E1 E2 a.
  destruct (zero_returns_post ps cfg os page_aligned p size w u1 w1 Hps Hp Hhint E1)
    as (Hin1 & _).
  destruct (zero_returns_post ps cfg os page_aligned p size w1 u2 w2 Hps Hp Hhint E2)
    as (Hin2 & Hout2).
  destruct (Z_le_dec p a) as [Hlo | Hlo];
    [destruct (Z_lt_dec a (p + size)) as [Hhi | Hhi]|].
  - rewrite Hin1, Hin2 by lia. reflexivity.
  - apply Hout2. lia.
  - apply Hout2. lia.
Qed.

Lemma zero_twice_is_zero_once_witness :
  load 4096
    (memory (final (zero 4096 release_build granting_os false 0x10000 4096
                      (final (zero 4096 release_build granting_os false 0x10000
                                4096 dirty_world))))) 0x10005
  = load 4096
      (memory (final (zero 4096 release_build granting_os false 0x10000 4096
                        dirty_world))) 0x10005.
Proof.
  apply (zero_twice_is_zero_once 4096 release_build granting_os false 0x10000 4096
           dirty_world tt _ tt _ ltac:(lia) ltac:(lia)
           (fun H => False_ind _ (Bool.diff_false_true H)) eq_refl eq_refl).
Defined.
